(** * CodeSprints/AutomaticDataDownloads.ipynb

    The notebook builds download URLs for NOAA reanalysis files by string
    concatenation, retrieves one file with [urllib.request.urlretrieve], and
    derives five yearly URLs by broadcasting the same concatenation over a
    pandas Series of year strings.  Its code cells are embedded below as
    computations over an explicit kernel state: the global namespace (a
    Python dict), the files of the working directory, and the number of
    retrievals issued so far. *)

From Stdlib Require Import ZArith String Ascii List DecimalString Sorted Lia.
From Stdlib Require Import DecimalPos DecimalZ.
From stdpp Require Import gmap strings list.

Open Scope string_scope.

(** ** Python values *)

(** Scalars held in variables and in the cells of a Series. *)
Inductive obj : Type :=
  | OStr (s : string)
  | OInt (z : Z).

(** A value is a scalar or a [pd.Series] with the default index
    [0 .. n-1]; the Series is kept as the list of its cells. *)
Inductive val : Type :=
  | VObj (o : obj)
  | VSeries (cells : list obj).

Abbreviation VStr s := (VObj (OStr s)).

Inductive exn : Type :=
  | NameError (x : string)
  | TypeError
  | URLError (detail : string)
  | Unsupported.

Inductive result (A : Type) : Type :=
  | Ok (a : A)
  | Raise (e : exn).
Arguments Ok {A} a.
Arguments Raise {A} e.

Definition rbind {A B} (r : result A) (f : A -> result B) : result B :=
  match r with
  | Ok a => f a
  | Raise e => Raise e
  end.

(** [all_ok f l] applies [f] to the cells left to right and stops at the
    first exception. *)
Fixpoint all_ok {A B} (f : A -> result B) (l : list A) : result (list B) :=
  match l with
  | [] => Ok []
  | a :: l' =>
      rbind (f a) (fun b => rbind (all_ok f l') (fun bs => Ok (b :: bs)))
  end.

(** [str(x)]: a string is itself, an int is written in decimal. *)
Definition str (o : obj) : string :=
  match o with
  | OStr s => s
  | OInt z => NilZero.string_of_int (Z.to_int z)
  end.

(** [a + b] on scalars: concatenation of two strings, sum of two ints,
    [TypeError] for a string and an int. *)
Definition add_obj (a b : obj) : result obj :=
  match a, b with
  | OStr s1, OStr s2 => Ok (OStr (s1 ++ s2))
  | OInt z1, OInt z2 => Ok (OInt (z1 + z2))
  | _, _ => Raise TypeError
  end.

(** [a + b] on values.  A scalar and a Series broadcast: [s + series] is
    [Series.__radd__], cell by cell with the scalar on the left;
    [series + s] has it on the right.  The notebook never adds two Series
    (that would align the two indexes), so that case is left out of the
    model and reported as [Unsupported]. *)
Definition py_add (a b : val) : result val :=
  match a, b with
  | VObj x, VObj y => rbind (add_obj x y) (fun o => Ok (VObj o))
  | VObj x, VSeries l =>
      rbind (all_ok (fun c => add_obj x c) l) (fun l' => Ok (VSeries l'))
  | VSeries l, VObj y =>
      rbind (all_ok (fun c => add_obj c y) l) (fun l' => Ok (VSeries l'))
  | VSeries _, VSeries _ => Raise Unsupported
  end.

(** [range(start, stop)] as a list. *)
Definition range (start stop : Z) : list Z :=
  map (fun i => (start + Z.of_nat i)%Z) (seq 0 (Z.to_nat (stop - start))).

(** [series.apply(f)] for a function on cells. *)
Definition apply (f : obj -> obj) (v : val) : result val :=
  match v with
  | VSeries l => Ok (VSeries (map f l))
  | VObj _ => Raise TypeError
  end.

(** ** Kernel state *)

(** [globals] is the notebook's namespace; [files] maps the name of each
    file of the working directory to its bytes; [calls] counts the
    retrievals issued so far. *)
Record Kernel : Type := mkKernel {
  globals : gmap string val;
  files : gmap string (list Byte.byte);
  calls : nat
}.

(** Expressions read the namespace and may raise. *)
Definition Expr : Type := gmap string val -> result val.

Definition name (x : string) : Expr :=
  fun g => match g !! x with
           | Some v => Ok v
           | None => Raise (NameError x)
           end.

Definition lit (s : string) : Expr := fun _ => Ok (VStr s).

(** Operands are evaluated left to right, then added. *)
Definition plus (e1 e2 : Expr) : Expr :=
  fun g => rbind (e1 g) (fun a => rbind (e2 g) (fun b => py_add a b)).

Declare Scope py_scope.
Delimit Scope py_scope with py.
Bind Scope py_scope with Expr.
Notation "e1 +' e2" := (plus e1 e2) (at level 50, left associativity) : py_scope.

(** Statements transform the kernel; an exception leaves the effects of
    the statements before it in place. *)
Definition Stmt : Type := Kernel -> result unit * Kernel.

Definition assign (x : string) (e : Expr) : Stmt :=
  fun k =>
    match e (globals k) with
    | Ok v => (Ok tt, mkKernel (<[x := v]> (globals k)) (files k) (calls k))
    | Raise ex => (Raise ex, k)
    end.

Definition seq_stmt (s1 s2 : Stmt) : Stmt :=
  fun k =>
    match s1 k with
    | (Ok _, k') => s2 k'
    | (Raise ex, k') => (Raise ex, k')
    end.

Notation "s1 ;; s2" := (seq_stmt s1 s2) : py_scope.

(** What calling [print] gives in namespace [g].  The built-in writes to
    the cell output, which the kernel state does not keep.  A [print] that
    the namespace rebinds is one of the values above, a string, an int or a
    Series, and calling any of them raises [TypeError]. *)
Definition print_result (g : gmap string val) : result unit :=
  match g !! "print" with
  | Some _ => Raise TypeError
  | None => Ok tt
  end.

(** [print(e1, ..., en)]: the arguments are evaluated left to right, then
    [print] is called; the kernel is left as it is. *)
Definition print_call (args : list Expr) : Stmt :=
  fun k =>
    match all_ok (fun e => e (globals k)) args with
    | Ok _ => (print_result (globals k), k)
    | Raise ex => (Raise ex, k)
    end.

Open Scope py_scope.

(** ** The URL cells *)

(** [http_dir + dataset + "/" + lev_type + "/" + variable + time + file_type],
    the right-hand side of both [filepaths=] assignments. *)
Definition filepaths_expr : Expr :=
  name "http_dir" +' name "dataset" +' lit "/" +' name "lev_type" +' lit "/"
  +' name "variable" +' name "time" +' name "file_type".

(** [variable + time + file_type], the right-hand side of [filename =]. *)
Definition filename_expr : Expr :=
  name "variable" +' name "time" +' name "file_type".

(** The cell that breaks the link into substrings, rebuilds it for 2010
    and prints it. *)
Definition cell_filepaths : Stmt :=
  assign "http_dir" (lit "https://downloads.psl.noaa.gov/Datasets/") ;;
  assign "dataset" (lit "ncep.reanalysis.dailyavgs") ;;
  assign "lev_type" (lit "surface") ;;
  assign "variable" (lit "air.sig995.") ;;
  assign "time" (lit "2010") ;;
  assign "file_type" (lit ".nc") ;;
  assign "filepaths" filepaths_expr ;;
  print_call [name "filepaths"].

(** [pd.Series(list(range(1965,1970)))] *)
Definition years_expr : Expr :=
  fun _ => Ok (VSeries (map OInt (range 1965 1970))).

(** [time.apply(str)] *)
Definition time_apply_str : Expr :=
  fun g => rbind (name "time" g) (apply (fun o => OStr (str o))).

(** The cell that generates the names of five yearly files. *)
Definition cell_five_years : Stmt :=
  assign "time" years_expr ;;
  assign "time" time_apply_str ;;
  assign "filepaths" filepaths_expr ;;
  print_call [name "filepaths"].

(** [os.listdir()]: the names in the working directory. *)
Definition listdir (k : Kernel) : list string :=
  map fst (map_to_list (files k)).

(** ** The spec's view of the URL cells *)

(** The fixed components of the naming convention, under the names the
    notebook gives them (the spec calls them host, dataset, category,
    variablePrefix and suffix). *)
Record NamingTemplate : Type := mkTemplate {
  http_dir : string;
  dataset : string;
  lev_type : string;
  variable : string;
  file_type : string
}.

(** The namespace after the six assignments that open the 2010 cell, made
    with the components of [tpl] and [time = t]. *)
Definition bind_template (tpl : NamingTemplate) (t : val)
    (g : gmap string val) : gmap string val :=
  <["file_type" := VStr (file_type tpl)]>
  (<["time" := t]>
  (<["variable" := VStr (variable tpl)]>
  (<["lev_type" := VStr (lev_type tpl)]>
  (<["dataset" := VStr (dataset tpl)]>
  (<["http_dir" := VStr (http_dir tpl)]> g))))).

(** A Series whose cells are all strings, as a list of strings. *)
Definition as_strings (v : val) : result (list string) :=
  match v with
  | VSeries l =>
      all_ok (fun c => match c with
                       | OStr s => Ok s
                       | OInt _ => Raise TypeError
                       end) l
  | VObj _ => Raise TypeError
  end.

Definition tokens_series (tokens : list string) : val :=
  VSeries (map OStr tokens).

(** [buildPaths]: the [filepaths] expression evaluated with the template
    bound and [time] a Series of the tokens. *)
Definition buildPaths (tpl : NamingTemplate) (tokens : list string)
    : result (list string) :=
  rbind (filepaths_expr (bind_template tpl (tokens_series tokens) ∅))
        as_strings.

(** The local names: the [filename] expression evaluated the same way. *)
Definition localNames (tpl : NamingTemplate) (tokens : list string)
    : result (list string) :=
  rbind (filename_expr (bind_template tpl (tokens_series tokens) ∅))
        as_strings.

(** The template of the notebook. *)
Definition noaa : NamingTemplate :=
  mkTemplate "https://downloads.psl.noaa.gov/Datasets/"
             "ncep.reanalysis.dailyavgs" "surface" "air.sig995." ".nc".

(** [t in u] on strings. *)
Fixpoint contains (t u : string) : bool :=
  String.prefix t u ||
  match u with
  | EmptyString => false
  | String _ u' => contains t u'
  end.

(** ** Retrieval *)

(** Modelled from the spec: what a retrieval gets back, the body of the
    resource or a failure with its detail (network failure, path not found,
    local write failure). *)
Inductive response : Type :=
  | Body (b : list Byte.byte)
  | Failure (detail : string).

(** Modelled from the spec: the FetchResult the batch fetcher records for
    each item. *)
Record FetchResult : Type := mkFetchResult {
  url : string;
  localName : string;
  success : bool;
  errorDetail : option string
}.

Definition detail_of (e : exn) : string :=
  match e with
  | URLError d => d
  | NameError x => x
  | TypeError => "TypeError"
  | Unsupported => "Unsupported"
  end.

(** Modelled from the spec: the states of an item of the batch. *)
Inductive status : Type :=
  | Pending
  | Fetched
  | Failed.

(** Modelled from the spec: an item of the batch, a URL/localName pair with
    its state. *)
Record item : Type := mkItem {
  item_url : string;
  item_name : string;
  item_status : status
}.

Definition status_of (r : FetchResult) : status :=
  if success r then Fetched else Failed.

Section Retrieval.

(** The remote endpoint together with the network: the answer to the
    [n]-th retrieval issued by the kernel, for the URL asked. *)
Variable server : nat -> string -> response.

(** Modelled from the spec: [urllib.request.urlretrieve] is a library
    function, not code of the notebook.  It performs a blocking retrieval
    of the URL to the given local name, overwriting any existing file of
    that name; a failure raises and leaves the files as they were. *)
Definition urlretrieve (url filename : val) : Stmt :=
  fun k =>
    match url, filename with
    | VStr u, VStr f =>
        match server (calls k) u with
        | Body b =>
            (Ok tt, mkKernel (globals k) (<[f := b]> (files k)) (S (calls k)))
        | Failure d =>
            (Raise (URLError d), mkKernel (globals k) (files k) (S (calls k)))
        end
    | _, _ => (Raise TypeError, k)
    end.

(** A call statement [f(e1, e2)]: arguments left to right, then the call. *)
Definition call2 (f : val -> val -> Stmt) (e1 e2 : Expr) : Stmt :=
  fun k =>
    match e1 (globals k) with
    | Ok a =>
        match e2 (globals k) with
        | Ok b => f a b k
        | Raise ex => (Raise ex, k)
        end
    | Raise ex => (Raise ex, k)
    end.

(** The download cell:
    [url = filepaths; filename = variable + time + file_type;
     urllib.request.urlretrieve(url, filename); print(url, filename)]. *)
Definition cell_urlretrieve : Stmt :=
  assign "url" (name "filepaths") ;;
  assign "filename" filename_expr ;;
  call2 urlretrieve (name "url") (name "filename") ;;
  print_call [name "url"; name "filename"].

(** *** The batch fetcher *)

(** Modelled from the spec: one item of the batch, retrieved with the
    call of the download cell, and the record of how it went. *)
Definition fetchOne (u n : string) (k : Kernel) : FetchResult * Kernel :=
  match urlretrieve (VStr u) (VStr n) k with
  | (Ok _, k') => (mkFetchResult u n true None, k')
  | (Raise e, k') => (mkFetchResult u n false (Some (detail_of e)), k')
  end.

(** Modelled from the spec: the notebook leaves the loop of Task 5
    unwritten.  [fetchAll] takes the URLs and local names index by index,
    in order; for each it performs the retrieval and records a
    FetchResult; a failed item is recorded and the loop goes on to the
    next. *)
Fixpoint fetchAll (urls localNames : list string) (k : Kernel)
    : list FetchResult * Kernel :=
  match urls, localNames with
  | u :: urls', n :: names' =>
      let (r, k1) := fetchOne u n k in
      let (rs, k2) := fetchAll urls' names' k1 in
      (r :: rs, k2)
  | _, _ => ([], k)
  end.

(** *** The batch as a state machine *)

(** Modelled from the spec: one transition of the batch.  The first
    Pending item, in index order, is retrieved and becomes Fetched or
    Failed; a batch without a Pending item has no transition. *)
Fixpoint step (items : list item) (k : Kernel) : option (list item * Kernel) :=
  match items with
  | [] => None
  | it :: rest =>
      match item_status it with
      | Pending =>
          let (r, k') := fetchOne (item_url it) (item_name it) k in
          Some (mkItem (item_url it) (item_name it) (status_of r) :: rest, k')
      | _ =>
          match step rest k with
          | Some (rest', k') => Some (it :: rest', k')
          | None => None
          end
      end
  end.

(** Modelled from the spec: [n] transitions of the batch, or fewer if the
    machine stops before. *)
Fixpoint run (n : nat) (items : list item) (k : Kernel) : list item * Kernel :=
  match n with
  | O => (items, k)
  | S n' =>
      match step items k with
      | Some (items', k') => run n' items' k'
      | None => (items, k)
      end
  end.

(** Modelled from the spec: the batch before any retrieval, every item
    Pending. *)
Fixpoint pending (urls localNames : list string) : list item :=
  match urls, localNames with
  | u :: urls', n :: names' => mkItem u n Pending :: pending urls' names'
  | _, _ => []
  end.

End Retrieval.

(** ** Definitions used in the statements *)

(** The URL of one token as the spec writes it: the seven pieces in their
    fixed order. *)
Definition url_of (tpl : NamingTemplate) (t : string) : string :=
  http_dir tpl ++ dataset tpl ++ "/" ++ lev_type tpl ++ "/"
  ++ variable tpl ++ t ++ file_type tpl.

(** The local name of one token as the spec writes it. *)
Definition name_of (tpl : NamingTemplate) (t : string) : string :=
  variable tpl ++ t ++ file_type tpl.

(** The fixed text in front of the token. *)
Definition fixed_prefix (tpl : NamingTemplate) : string :=
  http_dir tpl ++ dataset tpl ++ "/" ++ lev_type tpl ++ "/" ++ variable tpl.

(** [g] binds the five components of [tpl]. *)
Definition binds_template (tpl : NamingTemplate) (g : gmap string val) : Prop :=
  g !! "http_dir" = Some (VStr (http_dir tpl)) /\
  g !! "dataset" = Some (VStr (dataset tpl)) /\
  g !! "lev_type" = Some (VStr (lev_type tpl)) /\
  g !! "variable" = Some (VStr (variable tpl)) /\
  g !! "file_type" = Some (VStr (file_type tpl)).

(** Two namespaces give every name of [xs] the same binding. *)
Definition agree_on (xs : list string) (g1 g2 : gmap string val) : Prop :=
  Forall (fun x => g1 !! x = g2 !! x) xs.

(** The names the [filepaths] expression reads. *)
Definition filepaths_reads : list string :=
  ["http_dir"; "dataset"; "lev_type"; "variable"; "time"; "file_type"].

(** The tokens of the multi-year cell. *)
Definition five_years : list string := map str (map OInt (range 1965 1970)).

(** *** Path segments *)

(** [s] contains a "/". *)
Fixpoint has_slash (s : string) : bool :=
  match s with
  | EmptyString => false
  | String c s' => Ascii.eqb c "/" || has_slash s'
  end.

(** The final path segment of [s]: the text after its last "/", or all of
    [s] when it has none. *)
Fixpoint last_segment (s : string) : string :=
  match s with
  | EmptyString => EmptyString
  | String c s' =>
      if has_slash s' then last_segment s'
      else if Ascii.eqb c "/" then s' else s
  end.

(** *** Runs of digits *)

Definition is_digit (c : ascii) : bool :=
  Nat.leb 48 (nat_of_ascii c) && Nat.leb (nat_of_ascii c) 57.

Fixpoint all_digits (s : string) : bool :=
  match s with
  | EmptyString => true
  | String c s' => is_digit c && all_digits s'
  end.

(** The number of digits [s] starts with. *)
Fixpoint leading_digits (s : string) : nat :=
  match s with
  | EmptyString => 0
  | String c s' => if is_digit c then S (leading_digits s') else 0
  end.

(** [s] has [n] consecutive digits somewhere. *)
Fixpoint digit_run (n : nat) (s : string) : bool :=
  Nat.leb n (leading_digits s) ||
  match s with
  | EmptyString => false
  | String _ s' => digit_run n s'
  end.

Definition starts_with_digit (s : string) : bool :=
  match s with
  | EmptyString => false
  | String c _ => is_digit c
  end.

Fixpoint ends_with_digit (s : string) : bool :=
  match s with
  | EmptyString => false
  | String c EmptyString => is_digit c
  | String _ s' => ends_with_digit s'
  end.

(** Every token has [n] characters, all of them digits. *)
Definition digit_tokens (n : nat) (tokens : list string) : Prop :=
  Forall (fun t => String.length t = n /\ all_digits t = true) tokens.

(** *** Batches *)

Definition is_body (r : response) : bool :=
  match r with
  | Body _ => true
  | Failure _ => false
  end.

(** The item a finished retrieval leaves in the batch. *)
Definition item_of (r : FetchResult) : item :=
  mkItem (url r) (localName r) (status_of r).

(** An item that is Fetched or Failed. *)
Definition final (it : item) : Prop := item_status it <> Pending.

(** How many results are marked failure, and how many success. *)
Definition failures (rs : list FetchResult) : nat :=
  List.length (List.filter (fun r => negb (success r)) rs).

Definition successes (rs : list FetchResult) : nat :=
  List.length (List.filter success rs).

(** *** Concrete inputs *)

(** The template of the spec's example, with "downloads.psl.noaa.gov" as
    its first component. *)
Definition spec_example : NamingTemplate :=
  mkTemplate "downloads.psl.noaa.gov" "ncep.reanalysis.dailyavgs" "surface"
             "air.sig995." ".nc".

(** Two kernels that agree on the names the expression reads and differ in
    another variable, in their files and in their retrieval count. *)
Definition kernel_a : Kernel :=
  mkKernel (bind_template noaa (VStr "2010") ∅) ∅ 0.

Definition kernel_b : Kernel :=
  mkKernel (<["filepaths" := VStr "stale"]> (bind_template noaa (VStr "2010") ∅))
           {["air.sig995.2010.nc" := []]} 7.

(** The first bytes of a netCDF file. *)
Definition body_nc : list Byte.byte := [Byte.x43; Byte.x44; Byte.x46; Byte.x01].

(** A collaborator that always succeeds. *)
Definition reliable : nat -> string -> response := fun _ _ => Body body_nc.

(** A collaborator whose second retrieval fails. *)
Definition flaky : nat -> string -> response :=
  fun n _ => if Nat.eqb n 1 then Failure "HTTP Error 404: Not Found"
             else Body body_nc.

Definition fresh_kernel : Kernel := mkKernel ∅ ∅ 0.

(** A working directory that already holds a stale file of the 1965 name. *)
Definition stale_kernel : Kernel :=
  mkKernel ∅ {["air.sig995.1965.nc" := []]} 0.

(** The five URLs and local names of the notebook's template. *)
Definition urls5 : list string := map (url_of noaa) five_years.
Definition names5 : list string := map (name_of noaa) five_years.

(** A batch of three with its first item already fetched, and the batch
    and kernel one transition later. *)
Definition batch3 : list item :=
  [mkItem "u0" "n0" Fetched; mkItem "u1" "n1" Pending; mkItem "u2" "n2" Pending].

Definition batch3' : list item :=
  [mkItem "u0" "n0" Fetched; mkItem "u1" "n1" Fetched; mkItem "u2" "n2" Pending].

Definition kernel3' : Kernel := mkKernel ∅ {["n1" := body_nc]} 1.

(** *** Definitions for the further properties of the cells *)

(** A statement that writes no file and issues no retrieval. *)
Definition touches_no_file (s : Stmt) : Prop :=
  forall k, files (snd (s k)) = files k /\ calls (snd (s k)) = calls k.

(** The tokens the multi-year cell would build for other bounds of
    [range]: [pd.Series(list(range(start, stop))).apply(str)]. *)
Definition year_tokens (start stop : Z) : list string :=
  map str (map OInt (range start stop)).

(** A token has four characters, all digits. *)
Definition four_digits (t : string) : bool :=
  Nat.eqb (String.length t) 4 && all_digits t.

(** The kernel after the 2010 cell, run in a fresh kernel. *)
Definition kernel_2010 : Kernel := snd (cell_filepaths fresh_kernel).

(** The kernel after the 2010 cell and then the download cell. *)
Definition after_download (server : nat -> string -> response) (k : Kernel)
    : Kernel :=
  snd (cell_urlretrieve server (snd (cell_filepaths k))).

(** [p] holds of the [n] integers from [z] on. *)
Fixpoint all_from (p : Z -> bool) (z : Z) (n : nat) : bool :=
  match n with
  | O => true
  | S n' => p z && all_from p (Z.succ z) n'
  end.

(** * Properties *)

(** ** Strings *)

Lemma append_nil_l (b : string) : "" ++ b = b.
Proof. reflexivity. Qed.

Lemma append_cons (x : ascii) (a b : string) :
  String x a ++ b = String x (a ++ b).
Proof. reflexivity. Qed.

Lemma append_assoc (a b c : string) : (a ++ b) ++ c = a ++ (b ++ c).
Proof.
  induction a as [|x a IH]; [reflexivity |].
  rewrite !append_cons. now rewrite IH.
Qed.

Lemma append_nil_r (a : string) : a ++ "" = a.
Proof.
  induction a as [|x a IH]; [reflexivity |].
  rewrite append_cons. now rewrite IH.
Qed.

Lemma length_append (a b : string) :
  String.length (a ++ b) = String.length a + String.length b.
Proof.
  induction a as [|x a IH]; [reflexivity |].
  rewrite append_cons. simpl. now rewrite IH.
Qed.

Lemma append_inv_head (a b c : string) : a ++ b = a ++ c -> b = c.
Proof.
  induction a as [|x a IH]; intros H; [assumption |].
  rewrite !append_cons in H. injection H. auto.
Qed.

Lemma append_inv_tail (a b c : string) : a ++ c = b ++ c -> a = b.
Proof.
  revert b. induction a as [|x a IH]; intros [|y b] H.
  - reflexivity.
  - apply (f_equal String.length) in H.
    rewrite !length_append in H. simpl in H. lia.
  - apply (f_equal String.length) in H.
    rewrite !length_append in H. simpl in H. lia.
  - rewrite !append_cons in H. injection H as -> H. f_equal. now apply IH.
Qed.

(** ** Broadcasting *)

Lemma all_ok_radd (p : string) (l : list string) :
  all_ok (fun c => add_obj (OStr p) c) (map OStr l)
  = Ok (map (fun t => OStr (p ++ t)) l).
Proof.
  induction l as [|t l IH]; [reflexivity |].
  cbn [map all_ok]. rewrite IH. reflexivity.
Qed.

Lemma all_ok_add (s : string) (l : list string) :
  all_ok (fun c => add_obj c (OStr s)) (map OStr l)
  = Ok (map (fun t => OStr (t ++ s)) l).
Proof.
  induction l as [|t l IH]; [reflexivity |].
  cbn [map all_ok]. rewrite IH. reflexivity.
Qed.

Lemma as_strings_series (l : list string) :
  as_strings (VSeries (map OStr l)) = Ok l.
Proof.
  induction l as [|t l IH]; [reflexivity |].
  cbn [map as_strings all_ok] in *. rewrite IH. reflexivity.
Qed.

Lemma py_add_str (a b : string) : py_add (VStr a) (VStr b) = Ok (VStr (a ++ b)).
Proof. reflexivity. Qed.

Lemma py_add_str_series (a : string) (l : list string) :
  py_add (VStr a) (VSeries (map OStr l))
  = Ok (VSeries (map OStr (map (fun t => a ++ t) l))).
Proof.
  cbn [py_add]. rewrite all_ok_radd. cbn [rbind]. now rewrite map_map.
Qed.

Lemma py_add_series_str (l : list string) (b : string) :
  py_add (VSeries (map OStr l)) (VStr b)
  = Ok (VSeries (map OStr (map (fun t => t ++ b) l))).
Proof.
  cbn [py_add]. rewrite all_ok_add. cbn [rbind]. now rewrite map_map.
Qed.

Create Rewrite HintDb py_eval.
#[global] Hint Rewrite py_add_str py_add_str_series py_add_series_str : py_eval.

Lemma binds_bind_template tpl t g : binds_template tpl (bind_template tpl t g).
Proof. unfold binds_template, bind_template. repeat split; by simplify_map_eq. Qed.

Lemma time_bind_template tpl t g : bind_template tpl t g !! "time" = Some t.
Proof. unfold bind_template. by simplify_map_eq. Qed.

(** Evaluate an expression whose names are bound by the hypotheses. *)
Ltac eval_expr :=
  cbv [filepaths_expr filename_expr plus name lit];
  repeat match goal with
         | H : ?g !! ?x = Some _ |- context [?g !! ?x] => rewrite H
         end;
  repeat (cbn [rbind]; autorewrite with py_eval);
  cbn [rbind].

Lemma url_of_nested tpl t :
  ((((((http_dir tpl ++ dataset tpl) ++ "/") ++ lev_type tpl) ++ "/")
      ++ variable tpl) ++ t) ++ file_type tpl = url_of tpl t.
Proof. unfold url_of. now rewrite !append_assoc. Qed.

Lemma name_of_nested tpl t :
  (variable tpl ++ t) ++ file_type tpl = name_of tpl t.
Proof. unfold name_of. now rewrite !append_assoc. Qed.

(** Broadcasting the prefix and then the suffix is one pass over the cells. *)
Lemma two_pass (p s : string) (l : list string) :
  map (fun t => t ++ s) (map (fun t => p ++ t) l)
  = map (fun t => (p ++ t) ++ s) l.
Proof. apply map_map. Qed.

(** The [filepaths] expression on a Series of tokens. *)
Lemma filepaths_expr_series tpl tokens g :
  binds_template tpl g ->
  g !! "time" = Some (tokens_series tokens) ->
  filepaths_expr g = Ok (tokens_series (map (url_of tpl) tokens)).
Proof.
  intros (Hh & Hd & Hl & Hv & Hf) Ht. unfold tokens_series in *.
  eval_expr. rewrite two_pass.
  rewrite (map_ext _ (url_of tpl)); [reflexivity | apply url_of_nested].
Qed.

(** The [filepaths] expression on one token. *)
Lemma filepaths_expr_str tpl t g :
  binds_template tpl g ->
  g !! "time" = Some (VStr t) ->
  filepaths_expr g = Ok (VStr (url_of tpl t)).
Proof.
  intros (Hh & Hd & Hl & Hv & Hf) Ht.
  eval_expr. now rewrite url_of_nested.
Qed.

Lemma filename_expr_series tpl tokens g :
  binds_template tpl g ->
  g !! "time" = Some (tokens_series tokens) ->
  filename_expr g = Ok (tokens_series (map (name_of tpl) tokens)).
Proof.
  intros (Hh & Hd & Hl & Hv & Hf) Ht. unfold tokens_series in *.
  eval_expr. rewrite two_pass.
  rewrite (map_ext _ (name_of tpl)); [reflexivity | apply name_of_nested].
Qed.

Lemma filename_expr_str tpl t g :
  binds_template tpl g ->
  g !! "time" = Some (VStr t) ->
  filename_expr g = Ok (VStr (name_of tpl t)).
Proof.
  intros (Hh & Hd & Hl & Hv & Hf) Ht.
  eval_expr. now rewrite name_of_nested.
Qed.

Lemma buildPaths_eq tpl tokens :
  buildPaths tpl tokens = Ok (map (url_of tpl) tokens).
Proof.
  unfold buildPaths.
  rewrite (filepaths_expr_series tpl tokens)
    by (apply binds_bind_template || apply time_bind_template).
  cbn [rbind]. apply as_strings_series.
Qed.

Lemma localNames_eq tpl tokens :
  localNames tpl tokens = Ok (map (name_of tpl) tokens).
Proof.
  unfold localNames.
  rewrite (filename_expr_series tpl tokens)
    by (apply binds_bind_template || apply time_bind_template).
  cbn [rbind]. apply as_strings_series.
Qed.

(** ** Statements *)

Lemma print_result_insert (x : string) (v : val) (g : gmap string val) :
  x <> "print" -> print_result (<[x := v]> g) = print_result g.
Proof. intros H. unfold print_result. now rewrite lookup_insert_ne. Qed.

Lemma print_result_bind_template tpl t g :
  print_result (bind_template tpl t g) = print_result g.
Proof. unfold bind_template. now rewrite !print_result_insert by discriminate. Qed.

Lemma print_call_snd (args : list Expr) (k : Kernel) :
  snd (print_call args k) = k.
Proof.
  unfold print_call. now destruct (all_ok (fun e => e (globals k)) args).
Qed.

(** [print(x)] and [print(x, y)] with the names bound. *)
Lemma print_call_1 (x : string) (v : val) (k : Kernel) :
  globals k !! x = Some v ->
  print_call [name x] k = (print_result (globals k), k).
Proof. intros H. unfold print_call, name. cbn [all_ok]. now rewrite H. Qed.

Lemma print_call_2 (x y : string) (v w : val) (k : Kernel) :
  globals k !! x = Some v -> globals k !! y = Some w ->
  print_call [name x; name y] k = (print_result (globals k), k).
Proof.
  intros Hx Hy. unfold print_call, name. cbn [all_ok]. now rewrite Hx, Hy.
Qed.

(** What the 2010 cell does in any kernel. *)
Lemma cell_filepaths_run (k : Kernel) :
  cell_filepaths k
  = (print_result (globals k),
     mkKernel (<["filepaths" := VStr (url_of noaa "2010")]>
                 (bind_template noaa (VStr "2010") (globals k)))
              (files k) (calls k)).
Proof.
  unfold cell_filepaths, seq_stmt, assign at 1 2 3 4 5 6, lit.
  cbn [globals files calls].
  change (<["file_type" := _]> _) with (bind_template noaa (VStr "2010") (globals k)).
  unfold assign. cbn [globals files calls].
  rewrite (filepaths_expr_str noaa "2010")
    by (apply binds_bind_template || apply time_bind_template).
  rewrite (print_call_1 "filepaths" (VStr (url_of noaa "2010")))
    by apply lookup_insert_eq.
  cbn [globals].
  now rewrite print_result_insert, print_result_bind_template by discriminate.
Qed.

(** What the multi-year cell does in any kernel: [time] is rebound twice,
    then [filepaths] is bound and printed if its expression evaluates. *)
Lemma cell_five_years_eq (k : Kernel) :
  cell_five_years k
  = match filepaths_expr
            (<["time" := tokens_series five_years]>
               (<["time" := VSeries (map OInt (range 1965 1970))]> (globals k))) with
    | Ok v =>
        (print_result (globals k),
         mkKernel (<["filepaths" := v]>
                     (<["time" := tokens_series five_years]>
                        (<["time" := VSeries (map OInt (range 1965 1970))]>
                           (globals k))))
                  (files k) (calls k))
    | Raise e =>
        (Raise e,
         mkKernel (<["time" := tokens_series five_years]>
                     (<["time" := VSeries (map OInt (range 1965 1970))]>
                        (globals k)))
                  (files k) (calls k))
    end.
Proof.
  unfold cell_five_years, seq_stmt, assign at 1, years_expr.
  cbn [globals files calls].
  unfold assign at 1, time_apply_str, name. cbn [globals files calls].
  rewrite lookup_insert_eq. cbn [rbind apply].
  replace (VSeries (map (fun o => OStr (str o)) (map OInt (range 1965 1970))))
    with (tokens_series five_years)
    by (unfold tokens_series, five_years; now rewrite !map_map).
  unfold assign. cbn [globals files calls].
  destruct (filepaths_expr _) as [v | e]; [| reflexivity].
  rewrite (print_call_1 "filepaths" v) by apply lookup_insert_eq.
  cbn [globals]. now rewrite !print_result_insert by discriminate.
Qed.

(** The download cell in a kernel where [filepaths] and [time] are strings:
    it binds [url] and [filename], retrieves the one to the other, and
    prints them if the retrieval did not raise. *)
Lemma cell_urlretrieve_str (server : nat -> string -> response)
    (tpl : NamingTemplate) (t u : string) (k : Kernel) :
  binds_template tpl (globals k) ->
  globals k !! "time" = Some (VStr t) ->
  globals k !! "filepaths" = Some (VStr u) ->
  cell_urlretrieve server k
  = match server (calls k) u with
    | Body b =>
        (print_result (globals k),
         mkKernel (<["filename" := VStr (name_of tpl t)]>
                     (<["url" := VStr u]> (globals k)))
                  (<[name_of tpl t := b]> (files k)) (S (calls k)))
    | Failure d =>
        (Raise (URLError d),
         mkKernel (<["filename" := VStr (name_of tpl t)]>
                     (<["url" := VStr u]> (globals k)))
                  (files k) (S (calls k)))
    end.
Proof.
  intros (Hh & Hd & Hl & Hv & Hf) Ht Hp.
  unfold cell_urlretrieve, seq_stmt, assign at 1, name. rewrite Hp.
  cbn [globals files calls]. unfold assign. cbn [globals files calls].
  rewrite (filename_expr_str tpl t).
  - unfold call2, name. cbn [globals].
    rewrite lookup_insert_ne by discriminate. rewrite !lookup_insert_eq.
    unfold urlretrieve. cbn [globals files calls].
    destruct (server (calls k) u) as [b | d]; [| reflexivity].
    rewrite (print_call_2 "url" "filename" (VStr u) (VStr (name_of tpl t)));
      cbn [globals]; [| by simplify_map_eq..].
    now rewrite !print_result_insert by discriminate.
  - unfold binds_template. repeat split; by simplify_map_eq.
  - by simplify_map_eq.
Qed.

(** ** The URL cells and [buildPaths] *)

(** The 2010 cell computes the link the notebook shows as its output. *)
Example cell_filepaths_output :
  globals (snd (cell_filepaths (mkKernel ∅ ∅ 0))) !! "filepaths"
  = Some (VStr "https://downloads.psl.noaa.gov/Datasets/ncep.reanalysis.dailyavgs/surface/air.sig995.2010.nc").
Proof. vm_compute. reflexivity. Qed.

(** The five tokens of the multi-year cell. *)
Lemma years_tokens :
  map str (map OInt (range 1965 1970)) = ["1965"; "1966"; "1967"; "1968"; "1969"].
Proof. vm_compute. reflexivity. Qed.

(** The multi-year cell, run in a namespace that binds the template, leaves
    in [filepaths] the Series that [buildPaths] returns for its tokens. *)
Lemma cell_five_years_buildPaths tpl (k : Kernel) :
  binds_template tpl (globals k) ->
  fst (cell_five_years k) = print_result (globals k) /\
  globals (snd (cell_five_years k)) !! "time" = Some (tokens_series five_years) /\
  rbind (name "filepaths" (globals (snd (cell_five_years k)))) as_strings
  = buildPaths tpl five_years.
Proof.
  intros Hb. rewrite cell_five_years_eq.
  set (g2 := <["time" := tokens_series five_years]>
               (<["time" := VSeries (map OInt (range 1965 1970))]> (globals k))).
  assert (Hb2 : binds_template tpl g2).
  { destruct Hb as (Hh & Hd & Hl & Hv & Hf).
    unfold binds_template, g2. repeat split; by simplify_map_eq. }
  assert (Ht2 : g2 !! "time" = Some (tokens_series five_years)).
  { unfold g2. by simplify_map_eq. }
  rewrite (filepaths_expr_series tpl five_years g2 Hb2 Ht2).
  cbn [fst snd globals]. split; [reflexivity |]. split.
  - unfold g2. by simplify_map_eq.
  - unfold name. rewrite lookup_insert_eq. cbn [rbind].
    rewrite buildPaths_eq. apply as_strings_series.
Qed.

(** C1: for every template and every sequence of string tokens,
    [buildPaths] returns one URL per token, in input order, each the
    concatenation http_dir + dataset + "/" + lev_type + "/" + variable +
    token + file_type; the output has the length of the input, and the
    empty sequence of tokens gives the empty sequence. *)
Theorem buildPaths_one_url_per_token (tpl : NamingTemplate) (tokens : list string) :
  buildPaths tpl tokens
  = Ok (map (fun t => http_dir tpl ++ dataset tpl ++ "/" ++ lev_type tpl ++ "/"
                      ++ variable tpl ++ t ++ file_type tpl) tokens)
  /\ (exists urls, buildPaths tpl tokens = Ok urls
                   /\ List.length urls = List.length tokens)
  /\ buildPaths tpl [] = Ok [].
Proof.
  rewrite !buildPaths_eq. split; [reflexivity |]. split; [| reflexivity].
  eexists. split; [reflexivity |]. apply length_map.
Qed.

(** C2, as stated, fails: with the bare host name as first component the
    URLs carry neither the scheme nor the "/Datasets/" directory. *)
Lemma spec_example_urls_differ :
  buildPaths spec_example ["1965"; "1966"]
  = Ok ["downloads.psl.noaa.govncep.reanalysis.dailyavgs/surface/air.sig995.1965.nc";
        "downloads.psl.noaa.govncep.reanalysis.dailyavgs/surface/air.sig995.1966.nc"]
  /\ buildPaths spec_example ["1965"; "1966"]
     <> Ok ["https://downloads.psl.noaa.gov/Datasets/ncep.reanalysis.dailyavgs/surface/air.sig995.1965.nc";
            "https://downloads.psl.noaa.gov/Datasets/ncep.reanalysis.dailyavgs/surface/air.sig995.1966.nc"].
Proof.
  rewrite buildPaths_eq. split; [vm_compute; reflexivity |].
  vm_compute. discriminate.
Qed.

(** C2, amended: with the notebook's first component
    "https://downloads.psl.noaa.gov/Datasets/", tokens "1965" and "1966"
    give exactly the two URLs and the two local names of the example. *)
Theorem noaa_example :
  buildPaths noaa ["1965"; "1966"]
  = Ok ["https://downloads.psl.noaa.gov/Datasets/ncep.reanalysis.dailyavgs/surface/air.sig995.1965.nc";
        "https://downloads.psl.noaa.gov/Datasets/ncep.reanalysis.dailyavgs/surface/air.sig995.1966.nc"]
  /\ localNames noaa ["1965"; "1966"]
     = Ok ["air.sig995.1965.nc"; "air.sig995.1966.nc"].
Proof. split; vm_compute; reflexivity. Qed.

Lemma has_slash_append (a b : string) :
  has_slash (a ++ b) = has_slash a || has_slash b.
Proof.
  induction a as [|c a IH]; [reflexivity |].
  rewrite append_cons. cbn [has_slash]. now rewrite IH, orb_assoc.
Qed.

(** After a "/" and a text without "/", the final segment is that text. *)
Lemma last_segment_append (a n : string) :
  has_slash n = false -> last_segment (a ++ String "/" n) = n.
Proof.
  intros Hn. induction a as [|c a IH].
  - rewrite append_nil_l. cbn [last_segment]. now rewrite Hn.
  - rewrite append_cons. cbn [last_segment].
    rewrite has_slash_append. cbn [has_slash]. cbn [Ascii.eqb Bool.eqb].
    rewrite orb_true_r. exact IH.
Qed.

Lemma directory_then_name tpl (t : string) :
  url_of tpl t
  = (http_dir tpl ++ dataset tpl ++ "/" ++ lev_type tpl ++ "/") ++ name_of tpl t.
Proof. unfold url_of, name_of. now rewrite !append_assoc. Qed.

Lemma last_segment_url_of tpl (t : string) :
  has_slash (variable tpl) = false -> has_slash (file_type tpl) = false ->
  has_slash t = false ->
  last_segment (url_of tpl t) = name_of tpl t.
Proof.
  intros Hv Hf Ht.
  replace (url_of tpl t)
    with ((http_dir tpl ++ dataset tpl ++ "/" ++ lev_type tpl)
          ++ String "/" (name_of tpl t))
    by (unfold url_of, name_of; now rewrite !append_assoc).
  apply last_segment_append. unfold name_of.
  now rewrite !has_slash_append, Hv, Ht, Hf.
Qed.

(** C9, as stated, fails: tokens are not validated, and for the token
    "a/b" the final path segment of the URL is "b.nc" while the local name
    is "air.sig995.a/b.nc". *)
Lemma last_segment_differs :
  buildPaths noaa ["a/b"]
  = Ok ["https://downloads.psl.noaa.gov/Datasets/ncep.reanalysis.dailyavgs/surface/air.sig995.a/b.nc"] /\
  localNames noaa ["a/b"] = Ok ["air.sig995.a/b.nc"] /\
  last_segment
    "https://downloads.psl.noaa.gov/Datasets/ncep.reanalysis.dailyavgs/surface/air.sig995.a/b.nc"
  = "b.nc" /\
  "b.nc" <> "air.sig995.a/b.nc".
Proof.
  split; [vm_compute; reflexivity |]. split; [vm_compute; reflexivity |].
  split; [vm_compute; reflexivity | discriminate].
Qed.

(** C9, amended: for every token the URL is the directory
    http_dir + dataset + "/" + lev_type + "/" followed by the local name
    variable + token + file_type, so every URL ends with its own local
    name, for the Series of the multi-year cell and for the single token of
    the 2010 cell alike; and when variable, token and file_type contain no
    "/", the local name is exactly the final path segment of the URL. *)
Theorem local_name_is_last_segment (tpl : NamingTemplate)
    (tokens : list string) (t : string) :
  (exists urls names,
      buildPaths tpl tokens = Ok urls /\
      localNames tpl tokens = Ok names /\
      names = map (fun tok => variable tpl ++ tok ++ file_type tpl) tokens /\
      urls = map (fun n => (http_dir tpl ++ dataset tpl ++ "/" ++ lev_type tpl ++ "/") ++ n)
                 names /\
      (has_slash (variable tpl) = false -> has_slash (file_type tpl) = false ->
       Forall (fun tok => has_slash tok = false) tokens ->
       map last_segment urls = names))
  /\ (exists u f,
      filepaths_expr (bind_template tpl (VStr t) ∅) = Ok (VStr u) /\
      filename_expr (bind_template tpl (VStr t) ∅) = Ok (VStr f) /\
      f = variable tpl ++ t ++ file_type tpl /\
      u = (http_dir tpl ++ dataset tpl ++ "/" ++ lev_type tpl ++ "/") ++ f /\
      (has_slash (variable tpl) = false -> has_slash (file_type tpl) = false ->
       has_slash t = false -> last_segment u = f)).
Proof.
  split.
  - exists (map (url_of tpl) tokens), (map (name_of tpl) tokens).
    rewrite buildPaths_eq, localNames_eq.
    split; [reflexivity |]. split; [reflexivity |]. split; [reflexivity |].
    split.
    + rewrite map_map. apply map_ext. intros a. apply directory_then_name.
    + intros Hv Hf Hall. rewrite map_map.
      induction Hall as [|tok toks Htok _ IH]; [reflexivity |].
      cbn [map]. rewrite IH. f_equal. now apply last_segment_url_of.
  - exists (url_of tpl t), (name_of tpl t).
    rewrite (filepaths_expr_str tpl t), (filename_expr_str tpl t)
      by (apply binds_bind_template || apply time_bind_template).
    split; [reflexivity |]. split; [reflexivity |]. split; [reflexivity |].
    split; [apply directory_then_name |].
    intros Hv Hf Ht. now apply last_segment_url_of.
Qed.

Lemma local_name_is_last_segment_witness :
  has_slash (variable noaa) = false /\
  has_slash (file_type noaa) = false /\
  Forall (fun tok => has_slash tok = false) five_years /\
  has_slash "2010" = false /\
  (exists urls names,
      buildPaths noaa five_years = Ok urls /\
      localNames noaa five_years = Ok names /\
      map last_segment urls = names) /\
  (exists u f,
      filepaths_expr (bind_template noaa (VStr "2010") ∅) = Ok (VStr u) /\
      filename_expr (bind_template noaa (VStr "2010") ∅) = Ok (VStr f) /\
      last_segment u = f).
Proof.
  assert (Hv : has_slash (variable noaa) = false) by reflexivity.
  assert (Hf : has_slash (file_type noaa) = false) by reflexivity.
  assert (Hall : Forall (fun tok => has_slash tok = false) five_years)
    by (repeat constructor).
  assert (Ht : has_slash "2010" = false) by reflexivity.
  destruct (local_name_is_last_segment noaa five_years "2010")
    as ((urls & names & Hu & Hn & _ & _ & Hseg) & (u & f & Hu1 & Hf1 & _ & _ & Hs1)).
  repeat (split; [assumption |]). split.
  - exists urls, names. repeat (split; [assumption |]). exact (Hseg Hv Hf Hall).
  - exists u, f. repeat (split; [assumption |]). exact (Hs1 Hv Hf Ht).
Defined.

(** ** The cells of the notebook *)

(** The download cell, run after the 2010 cell, asks for the 2010 URL and
    writes the body under the 2010 local name. *)
Lemma cell_urlretrieve_run (server : nat -> string -> response) (k : Kernel) :
  let k1 := snd (cell_filepaths k) in
  globals (snd (cell_urlretrieve server k1)) !! "url"
  = Some (VStr (url_of noaa "2010")) /\
  globals (snd (cell_urlretrieve server k1)) !! "filename"
  = Some (VStr (name_of noaa "2010")) /\
  match server (calls k) (url_of noaa "2010") with
  | Body b =>
      fst (cell_urlretrieve server k1) = print_result (globals k) /\
      files (snd (cell_urlretrieve server k1))
      = <[name_of noaa "2010" := b]> (files k)
  | Failure d =>
      fst (cell_urlretrieve server k1) = Raise (URLError d) /\
      files (snd (cell_urlretrieve server k1)) = files k
  end.
Proof.
  rewrite cell_filepaths_run. cbn [snd].
  rewrite (cell_urlretrieve_str server noaa "2010" (url_of noaa "2010")).
  - cbn [calls globals files].
    destruct (server (calls k) (url_of noaa "2010")); cbn [fst snd globals files];
      (split; [by simplify_map_eq |]); (split; [by simplify_map_eq |]);
      split; try reflexivity.
    now rewrite print_result_insert, print_result_bind_template by discriminate.
  - pose proof (binds_bind_template noaa (VStr "2010") (globals k))
      as (Hh & Hd & Hl & Hv & Hf).
    unfold binds_template. cbn [globals]. repeat split; by simplify_map_eq.
  - cbn [globals]. rewrite lookup_insert_ne by discriminate.
    apply time_bind_template.
  - cbn [globals]. apply lookup_insert_eq.
Qed.

(** [os.listdir()] shows exactly the names that hold a file. *)
Lemma listdir_spec (k : Kernel) (f : string) :
  f ∈ listdir k <-> is_Some (files k !! f).
Proof.
  unfold listdir. change (map fst ?l) with (fst <$> l).
  rewrite list_elem_of_fmap. split.
  - intros [[f' b] [-> H]]. apply elem_of_map_to_list in H. eauto.
  - intros [b H]. exists (f, b). split; [reflexivity |].
    now apply elem_of_map_to_list.
Qed.

(** After a successful download the listing shows the 2010 file. *)
Lemma listdir_after_download (server : nat -> string -> response) (k : Kernel)
    (b : list Byte.byte) :
  server (calls k) (url_of noaa "2010") = Body b ->
  name_of noaa "2010"
  ∈ listdir (snd (cell_urlretrieve server (snd (cell_filepaths k)))).
Proof.
  intros Hs. apply listdir_spec.
  pose proof (cell_urlretrieve_run server k) as (_ & _ & H).
  rewrite Hs in H. destruct H as [_ ->]. rewrite lookup_insert_eq. eauto.
Qed.

(** ** No hidden state *)

Lemma filepaths_expr_reads (g1 g2 : gmap string val) :
  agree_on filepaths_reads g1 g2 -> filepaths_expr g1 = filepaths_expr g2.
Proof.
  unfold agree_on, filepaths_reads. rewrite !Forall_cons.
  intros (Hh & Hd & Hl & Hv & Ht & Hf & _).
  unfold filepaths_expr, plus, name. now rewrite Hh, Hd, Hl, Hv, Ht, Hf.
Qed.

Lemma filename_expr_reads (g1 g2 : gmap string val) :
  agree_on filepaths_reads g1 g2 -> filename_expr g1 = filename_expr g2.
Proof.
  unfold agree_on, filepaths_reads. rewrite !Forall_cons.
  intros (Hh & Hd & Hl & Hv & Ht & Hf & _).
  unfold filename_expr, plus, name. now rewrite Hv, Ht, Hf.
Qed.

(** An assignment writes its own name and nothing else. *)
Lemma assign_frame (x : string) (e : Expr) (k : Kernel) :
  files (snd (assign x e k)) = files k /\
  calls (snd (assign x e k)) = calls k /\
  forall y, y <> x -> globals (snd (assign x e k)) !! y = globals k !! y.
Proof.
  unfold assign. destruct (e (globals k)); cbn [snd files calls globals].
  - repeat split. intros y Hy. now apply lookup_insert_ne.
  - repeat split.
Qed.

(** C4: [buildPaths] and the local names are determined by the template
    and the tokens: evaluated on top of any namespace [g], the two
    expressions give what [buildPaths] and [localNames] give.  More
    generally the [filepaths] and [filename] expressions are functions of
    the six names they read: two kernels that agree on those names,
    whatever their other variables, files and retrieval count, give the
    same URLs and the same local names, and the assignment to [filepaths]
    changes no file, no count and no other variable. *)
Theorem buildPaths_no_hidden_state (tpl : NamingTemplate) (tokens : list string)
    (g : gmap string val) (k1 k2 : Kernel) (y : string) :
  rbind (filepaths_expr (bind_template tpl (tokens_series tokens) g)) as_strings
  = buildPaths tpl tokens /\
  rbind (filename_expr (bind_template tpl (tokens_series tokens) g)) as_strings
  = localNames tpl tokens /\
  (agree_on filepaths_reads (globals k1) (globals k2) ->
   filepaths_expr (globals k1) = filepaths_expr (globals k2) /\
   filename_expr (globals k1) = filename_expr (globals k2) /\
   fst (assign "filepaths" filepaths_expr k1)
   = fst (assign "filepaths" filepaths_expr k2)) /\
  files (snd (assign "filepaths" filepaths_expr k1)) = files k1 /\
  calls (snd (assign "filepaths" filepaths_expr k1)) = calls k1 /\
  (y <> "filepaths" ->
   globals (snd (assign "filepaths" filepaths_expr k1)) !! y = globals k1 !! y).
Proof.
  destruct (assign_frame "filepaths" filepaths_expr k1) as (Hf & Hc & Hg).
  split; [| split; [| split; [| repeat split; [assumption.. | apply Hg]]]].
  - rewrite buildPaths_eq, (filepaths_expr_series tpl tokens)
      by (apply binds_bind_template || apply time_bind_template).
    cbn [rbind]. apply as_strings_series.
  - rewrite localNames_eq, (filename_expr_series tpl tokens)
      by (apply binds_bind_template || apply time_bind_template).
    cbn [rbind]. apply as_strings_series.
  - intros H.
    pose proof (filepaths_expr_reads _ _ H) as He.
    pose proof (filename_expr_reads _ _ H) as Hn.
    repeat split; try assumption.
    unfold assign. rewrite He. now destruct (filepaths_expr (globals k2)).
Qed.

Lemma buildPaths_no_hidden_state_witness :
  agree_on filepaths_reads (globals kernel_a) (globals kernel_b) /\
  "time" <> "filepaths" /\
  rbind (filepaths_expr (bind_template noaa (tokens_series five_years)
                           (globals kernel_b))) as_strings
  = buildPaths noaa five_years /\
  rbind (filename_expr (bind_template noaa (tokens_series five_years)
                          (globals kernel_b))) as_strings
  = localNames noaa five_years /\
  (filepaths_expr (globals kernel_a) = filepaths_expr (globals kernel_b) /\
   filename_expr (globals kernel_a) = filename_expr (globals kernel_b) /\
   fst (assign "filepaths" filepaths_expr kernel_a)
   = fst (assign "filepaths" filepaths_expr kernel_b)) /\
  files (snd (assign "filepaths" filepaths_expr kernel_a)) = files kernel_a /\
  calls (snd (assign "filepaths" filepaths_expr kernel_a)) = calls kernel_a /\
  globals (snd (assign "filepaths" filepaths_expr kernel_a)) !! "time"
  = globals kernel_a !! "time".
Proof.
  assert (H1 : agree_on filepaths_reads (globals kernel_a) (globals kernel_b)).
  { unfold agree_on, filepaths_reads. repeat constructor. }
  assert (H2 : "time" <> "filepaths") by discriminate.
  destruct (buildPaths_no_hidden_state noaa five_years (globals kernel_b)
              kernel_a kernel_b "time") as (Hb & Hl & Hagree & Hf & Hc & Hy).
  repeat (split; [assumption |]).
  split; [exact (Hagree H1) |]. repeat (split; [assumption |]). exact (Hy H2).
Defined.

(** ** Tokens inside URLs *)

Lemma prefix_nil (u : string) : String.prefix "" u = true.
Proof. destruct u; reflexivity. Qed.

Lemma prefix_cons (a b : ascii) (t u : string) :
  String.prefix (String a t) (String b u)
  = if Ascii.ascii_dec a b then String.prefix t u else false.
Proof. reflexivity. Qed.

Lemma prefix_append (t b : string) : String.prefix t (t ++ b) = true.
Proof.
  induction t as [|c t IH]; [apply prefix_nil |].
  rewrite append_cons, prefix_cons. now destruct (Ascii.ascii_dec c c).
Qed.

Lemma prefix_inv (t u : string) :
  String.prefix t u = true -> exists b, u = t ++ b.
Proof.
  revert u. induction t as [|c t IH]; intros u H.
  - exists u. reflexivity.
  - destruct u as [|d u]; [discriminate |].
    rewrite prefix_cons in H. destruct (Ascii.ascii_dec c d) as [->|]; [| discriminate].
    destruct (IH u H) as [b ->]. exists b. reflexivity.
Qed.

Lemma contains_cons (t : string) (c : ascii) (u : string) :
  contains t (String c u) = String.prefix t (String c u) || contains t u.
Proof. reflexivity. Qed.

(** [contains] decides the occurrence of [t] somewhere in [u]. *)
Lemma contains_spec (t u : string) :
  contains t u = true <-> exists a b, u = a ++ t ++ b.
Proof.
  split.
  - induction u as [|c u IH]; intros H.
    + cbn [contains] in H. rewrite orb_false_r in H.
      apply prefix_inv in H as [b Hb]. exists "", b. exact Hb.
    + rewrite contains_cons in H. apply orb_true_iff in H as [H | H].
      * apply prefix_inv in H as [b Hb]. exists "", b. exact Hb.
      * destruct (IH H) as (a & b & ->). exists (String c a), b. reflexivity.
  - intros (a & b & ->). induction a as [|c a IH].
    + rewrite append_nil_l. destruct (t ++ b) as [|c r] eqn:E.
      * cbn [contains]. rewrite <- E, prefix_append. reflexivity.
      * rewrite contains_cons, <- E, prefix_append. reflexivity.
    + rewrite append_cons, contains_cons, IH. apply orb_true_r.
Qed.

Lemma contains_own_token tpl (t : string) : contains t (url_of tpl t) = true.
Proof.
  apply contains_spec.
  exists (http_dir tpl ++ dataset tpl ++ "/" ++ lev_type tpl ++ "/" ++ variable tpl),
         (file_type tpl).
  unfold url_of. now rewrite !append_assoc.
Qed.

Lemma url_of_fixed_prefix tpl t :
  url_of tpl t = fixed_prefix tpl ++ t ++ file_type tpl.
Proof. unfold url_of, fixed_prefix. now rewrite !append_assoc. Qed.

Lemma digit_run_cons (n : nat) (c : ascii) (s : string) :
  digit_run n (String c s)
  = Nat.leb n (leading_digits (String c s)) || digit_run n s.
Proof. reflexivity. Qed.

Lemma leading_digits_all (x s : string) :
  all_digits x = true -> starts_with_digit s = false ->
  leading_digits (x ++ s) = String.length x.
Proof.
  intros Hx Hs. induction x as [|c x IH].
  - rewrite append_nil_l. destruct s as [|d s]; [reflexivity |].
    cbn in *. now rewrite Hs.
  - cbn [all_digits] in Hx. apply andb_true_iff in Hx as [Hc Hx].
    rewrite append_cons. cbn [leading_digits String.length].
    rewrite Hc. f_equal. now apply IH.
Qed.

Lemma digit_run_leading (n : nat) (s : string) :
  digit_run n s = false -> leading_digits s < n.
Proof.
  intros H. destruct s as [|c s]; cbn [digit_run] in H;
    apply orb_false_iff in H as [H _]; now apply Nat.leb_gt in H.
Qed.

Lemma digit_run_tail (n : nat) (c : ascii) (s : string) :
  digit_run n (String c s) = false -> digit_run n s = false.
Proof. rewrite digit_run_cons. intros H. now apply orb_false_iff in H as [_ H]. Qed.

(** After the last digits of a token, no run of [n] digits starts. *)
Lemma digit_run_short (n : nat) (x s : string) :
  all_digits x = true -> String.length x < n ->
  starts_with_digit s = false -> digit_run n s = false ->
  digit_run n (x ++ s) = false.
Proof.
  intros Hx Hn Hs Hr. induction x as [|c x IH].
  - now rewrite append_nil_l.
  - pose proof (leading_digits_all _ _ Hx Hs) as Hl.
    cbn [all_digits] in Hx. apply andb_true_iff in Hx as [Hc Hx].
    cbn [String.length] in Hn.
    rewrite append_cons in *. rewrite digit_run_cons, Hl.
    apply orb_false_iff. split.
    + apply Nat.leb_gt. cbn [String.length]. lia.
    + apply IH; [assumption | lia].
Qed.

Lemma prefix_leading_digits (t s : string) :
  String.prefix t s = true -> all_digits t = true ->
  String.length t <= leading_digits s.
Proof.
  revert s. induction t as [|c t IH]; intros s Hp Ht; [cbn; lia |].
  destruct s as [|d s]; [discriminate |].
  rewrite prefix_cons in Hp.
  destruct (Ascii.ascii_dec c d) as [<-|]; [| discriminate].
  cbn [all_digits] in Ht. apply andb_true_iff in Ht as [Hc Ht].
  cbn [leading_digits String.length]. rewrite Hc.
  apply le_n_S. now apply IH.
Qed.

(** An occurrence of a digit string is a run of digits of its length. *)
Lemma contains_digit_run (t s : string) :
  contains t s = true -> all_digits t = true ->
  digit_run (String.length t) s = true.
Proof.
  intros Hc Ht. induction s as [|c s IH].
  - cbn [contains] in Hc. rewrite orb_false_r in Hc.
    cbn [digit_run]. rewrite orb_false_r. apply Nat.leb_le.
    now apply prefix_leading_digits.
  - rewrite contains_cons in Hc. rewrite digit_run_cons.
    apply orb_true_iff in Hc as [Hc | Hc]; apply orb_true_iff.
    + left. apply Nat.leb_le. now apply prefix_leading_digits.
    + right. now apply IH.
Qed.

Lemma ends_with_digit_tail (c : ascii) (p : string) :
  ends_with_digit (String c p) = false -> ends_with_digit p = false.
Proof. destruct p; [reflexivity | trivial]. Qed.

(** A non-empty text that does not end with a digit keeps its leading
    digits, whatever follows it. *)
Lemma leading_digits_append (p r : string) :
  p <> "" -> ends_with_digit p = false ->
  leading_digits (p ++ r) = leading_digits p.
Proof.
  induction p as [|c p IH]; intros Hne He; [congruence |].
  rewrite append_cons. cbn [leading_digits].
  destruct (is_digit c) eqn:Hc; [| reflexivity].
  f_equal. destruct p as [|d p].
  - cbn [ends_with_digit] in He. congruence.
  - apply IH; [discriminate | exact He].
Qed.

Lemma prefix_same_length (t t' s : string) :
  String.prefix t' (t ++ s) = true -> String.length t' = String.length t ->
  t' = t.
Proof.
  intros Hp Hl. apply prefix_inv in Hp as [b Hb].
  assert (Hbs : String.length b = String.length s).
  { apply (f_equal String.length) in Hb. rewrite !length_append in Hb. lia. }
  revert t' Hl Hb. induction t as [|c t IH]; intros [|d t'] Hl Hb;
    try discriminate; [reflexivity |].
  rewrite !append_cons in Hb. injection Hb as -> Hb.
  f_equal. apply IH; [now injection Hl | assumption].
Qed.

(** The only run of digits as long as the token, in the URL of a digit
    token, is the token itself. *)
Lemma contains_digit_token (p t s t' : string) :
  all_digits t = true -> all_digits t' = true ->
  String.length t' = String.length t ->
  digit_run (String.length t) p = false -> ends_with_digit p = false ->
  digit_run (String.length t) s = false -> starts_with_digit s = false ->
  contains t' (p ++ t ++ s) = true -> t' = t.
Proof.
  intros Ht Ht' Hl Hp He Hs Hd. induction p as [|c p IH]; intros Hc.
  - rewrite append_nil_l in Hc. destruct t as [|c t].
    + destruct t'; [reflexivity | discriminate].
    + rewrite append_cons, contains_cons in Hc.
      apply orb_true_iff in Hc as [Hc | Hc].
      * rewrite <- append_cons in Hc. now apply (prefix_same_length _ _ s).
      * apply contains_digit_run in Hc; [| assumption].
        cbn [all_digits] in Ht. apply andb_true_iff in Ht as [_ Ht].
        rewrite Hl, (digit_run_short _ t s) in Hc;
          [discriminate | assumption | cbn [String.length]; lia | assumption..].
  - rewrite append_cons, contains_cons in Hc.
    apply orb_true_iff in Hc as [Hc | Hc].
    + apply prefix_leading_digits in Hc; [| assumption].
      rewrite <- append_cons, leading_digits_append in Hc;
        [| discriminate | assumption].
      apply digit_run_leading in Hp. lia.
    + apply IH; [now apply digit_run_tail in Hp
                | now apply ends_with_digit_tail in He | assumption].
Qed.

Lemma lookup_map {A B} (f : A -> B) (l : list A) (i : nat) :
  map f l !! i = option_map f (l !! i).
Proof.
  revert i. induction l as [|a l IH]; intros [|i]; try reflexivity. apply IH.
Qed.

Lemma digit_tokens_lookup n tokens i t :
  digit_tokens n tokens -> tokens !! i = Some t ->
  String.length t = n /\ all_digits t = true.
Proof.
  intros H Hi. unfold digit_tokens in H. rewrite Forall_forall in H.
  apply H. apply list_elem_of_lookup. eauto.
Qed.

(** C3, as stated, fails: the URL of token "1965" contains "65", another
    token of the same sequence. *)
Lemma url_contains_other_token :
  exists urls u0,
    buildPaths noaa ["1965"; "65"] = Ok urls /\
    List.length urls = 2 /\
    urls !! 0 = Some u0 /\
    ["1965"; "65"] !! 1 = Some "65" /\
    "65" <> "1965" /\
    contains "65" u0 = true.
Proof.
  eexists. eexists. rewrite buildPaths_eq.
  split; [reflexivity |]. split; [reflexivity |]. split; [reflexivity |].
  split; [reflexivity |]. split; [discriminate |]. vm_compute. reflexivity.
Qed.

(** C3, amended: for every template and every sequence of N tokens,
    [buildPaths] returns exactly N URLs and the URL at each index contains
    the token at that index.  When the tokens are strings of [n] digits,
    and the fixed text before the token and the suffix after it hold no run
    of [n] digits and no digit next to the token, a URL contains no token
    of the sequence but its own. *)
Theorem buildPaths_tokens_in_urls (tpl : NamingTemplate) (tokens : list string)
    (n : nat) :
  exists urls,
    buildPaths tpl tokens = Ok urls /\
    List.length urls = List.length tokens /\
    Forall2 (fun t u => contains t u = true) tokens urls /\
    (digit_tokens n tokens ->
     digit_run n (fixed_prefix tpl) = false ->
     ends_with_digit (fixed_prefix tpl) = false ->
     digit_run n (file_type tpl) = false ->
     starts_with_digit (file_type tpl) = false ->
     forall i j ui tj,
       urls !! i = Some ui -> tokens !! j = Some tj ->
       tokens !! i <> Some tj -> contains tj ui = false).
Proof.
  exists (map (url_of tpl) tokens). rewrite buildPaths_eq.
  split; [reflexivity |]. split; [apply length_map |]. split.
  - induction tokens as [|t tokens IH]; constructor;
      [apply contains_own_token | exact IH].
  - intros Hd Hp He Hs Hb i j ui tj Hi Hj Hne.
    rewrite lookup_map in Hi. destruct (tokens !! i) as [ti|] eqn:Eti;
      [| discriminate]. injection Hi as <-.
    destruct (digit_tokens_lookup _ _ _ _ Hd Eti) as [Hli Hdi].
    destruct (digit_tokens_lookup _ _ _ _ Hd Hj) as [Hlj Hdj].
    destruct (contains tj (url_of tpl ti)) eqn:Hc; [| reflexivity].
    exfalso. apply Hne. f_equal. symmetry.
    rewrite url_of_fixed_prefix in Hc. subst n.
    apply (contains_digit_token (fixed_prefix tpl) ti (file_type tpl) tj);
      assumption.
Qed.

Lemma buildPaths_tokens_in_urls_witness :
  digit_tokens 4 five_years /\
  digit_run 4 (fixed_prefix noaa) = false /\
  ends_with_digit (fixed_prefix noaa) = false /\
  digit_run 4 (file_type noaa) = false /\
  starts_with_digit (file_type noaa) = false /\
  exists urls,
    buildPaths noaa five_years = Ok urls /\
    List.length urls = List.length five_years /\
    Forall2 (fun t u => contains t u = true) five_years urls /\
    forall i j ui tj,
      urls !! i = Some ui -> five_years !! j = Some tj ->
      five_years !! i <> Some tj -> contains tj ui = false.
Proof.
  assert (Hd : digit_tokens 4 five_years).
  { unfold digit_tokens. repeat constructor. }
  assert (Hp : digit_run 4 (fixed_prefix noaa) = false) by (vm_compute; reflexivity).
  assert (He : ends_with_digit (fixed_prefix noaa) = false) by (vm_compute; reflexivity).
  assert (Hs : digit_run 4 (file_type noaa) = false) by (vm_compute; reflexivity).
  assert (Hb : starts_with_digit (file_type noaa) = false) by (vm_compute; reflexivity).
  repeat (split; [assumption |]).
  destruct (buildPaths_tokens_in_urls noaa five_years 4) as (urls & H1 & H2 & H3 & H4).
  exists urls. repeat (split; [assumption |]).
  exact (H4 Hd Hp He Hs Hb).
Defined.

(** ** Retrieval *)

Section RetrievalProperties.

Variable server : nat -> string -> response.

Lemma fetchOne_eq (u n : string) (k : Kernel) :
  fetchOne server u n k
  = match server (calls k) u with
    | Body b =>
        (mkFetchResult u n true None,
         mkKernel (globals k) (<[n := b]> (files k)) (S (calls k)))
    | Failure d =>
        (mkFetchResult u n false (Some d),
         mkKernel (globals k) (files k) (S (calls k)))
    end.
Proof.
  unfold fetchOne, urlretrieve. now destruct (server (calls k) u).
Qed.

(** What one item leaves behind, whatever the answer. *)
Lemma fetchOne_facts (u n : string) (k : Kernel) :
  let (r, k') := fetchOne server u n k in
  url r = u /\ localName r = n /\
  success r = is_body (server (calls k) u) /\
  calls k' = S (calls k) /\ globals k' = globals k /\
  (forall f, f <> n -> files k' !! f = files k !! f) /\
  match server (calls k) u with
  | Body b => files k' !! n = Some b
  | Failure _ => files k' = files k
  end.
Proof.
  rewrite fetchOne_eq. destruct (server (calls k) u); cbn.
  - repeat split; [| apply lookup_insert_eq].
    intros f Hf. now apply lookup_insert_ne.
  - repeat split.
Qed.

Lemma fetchAll_cons (u n : string) (urls names : list string) (k : Kernel) :
  fetchAll server (u :: urls) (n :: names) k
  = let (r, k1) := fetchOne server u n k in
    let (rs, k2) := fetchAll server urls names k1 in
    (r :: rs, k2).
Proof. reflexivity. Qed.

(** The batch returns one result per pair, for the URLs and names given,
    and has issued one retrieval per pair when it returns. *)
Lemma fetchAll_shape (urls names : list string) (k : Kernel) :
  List.length urls = List.length names ->
  let (rs, k') := fetchAll server urls names k in
  List.length rs = List.length urls /\
  map url rs = urls /\ map localName rs = names /\
  calls k' = calls k + List.length urls /\ globals k' = globals k.
Proof.
  revert names k. induction urls as [|u urls IH]; intros [|n names] k Hl;
    try discriminate.
  - cbn. repeat split. lia.
  - rewrite fetchAll_cons.
    pose proof (fetchOne_facts u n k) as H1.
    destruct (fetchOne server u n k) as [r k1].
    destruct H1 as (Hu & Hn & _ & Hc & Hg & _).
    specialize (IH names k1 ltac:(now injection Hl)).
    destruct (fetchAll server urls names k1) as [rs k2].
    destruct IH as (L & U & N & C & G). cbn [List.length map].
    repeat split; try congruence; lia.
Qed.

(** The result at each index records the answer to that item's
    retrieval, which is the retrieval of that index. *)
Lemma fetchAll_lookup (urls names : list string) (k : Kernel) (i : nat) (u : string) :
  List.length urls = List.length names ->
  urls !! i = Some u ->
  exists r, fst (fetchAll server urls names k) !! i = Some r /\
            url r = u /\ names !! i = Some (localName r) /\
            success r = is_body (server (calls k + i) u).
Proof.
  revert names k i. induction urls as [|u' urls IH]; intros [|n names] k i Hl Hi;
    try discriminate.
  rewrite fetchAll_cons.
  pose proof (fetchOne_facts u' n k) as H1.
  destruct (fetchOne server u' n k) as [r k1].
  destruct H1 as (Hu & Hn & Hs & Hc & _).
  destruct i as [|i].
  - injection Hi as <-.
    destruct (fetchAll server urls names k1) as [rs k2].
    exists r. rewrite Nat.add_0_r. cbn. repeat split; congruence.
  - destruct (IH names k1 i ltac:(now injection Hl) Hi) as (r' & Hr & H).
    destruct (fetchAll server urls names k1) as [rs k2].
    exists r'. rewrite Hc in H. replace (calls k + S i) with (S (calls k) + i) by lia.
    split; [exact Hr | exact H].
Qed.

Lemma fetchAll_result_at (urls names : list string) (k : Kernel) (i : nat)
    (r : FetchResult) :
  List.length urls = List.length names ->
  fst (fetchAll server urls names k) !! i = Some r ->
  exists u, urls !! i = Some u /\ url r = u /\
            names !! i = Some (localName r) /\
            success r = is_body (server (calls k + i) u).
Proof.
  intros Hl Hr.
  pose proof (fetchAll_shape urls names k Hl) as Hs.
  destruct (fetchAll server urls names k) as [rs k'] eqn:E.
  destruct Hs as (Hlen & _). cbn [fst] in Hr.
  assert (Hi : i < List.length urls).
  { rewrite <- Hlen. apply lookup_lt_is_Some. eauto. }
  apply lookup_lt_is_Some in Hi as [u Hu]. exists u. split; [exact Hu |].
  destruct (fetchAll_lookup urls names k i u Hl Hu) as (r' & Hr' & H).
  rewrite E in Hr'. cbn [fst] in Hr'. congruence.
Qed.

(** C5: with a collaborator that always succeeds, [fetchAll] on N
    URL/localName pairs returns N results, all marked success, for the
    URLs and local names given in order; when the local names are those
    of a template and its tokens, each is variable + token + file_type
    of the corresponding token. *)
Theorem fetchAll_all_succeed (urls names : list string) (k : Kernel)
    (tpl : NamingTemplate) (tokens : list string) :
  (forall n u, is_body (server n u) = true) ->
  List.length urls = List.length names ->
  exists rs k',
    fetchAll server urls names k = (rs, k') /\
    List.length rs = List.length urls /\
    Forall (fun r => success r = true) rs /\
    map url rs = urls /\
    map localName rs = names /\
    (localNames tpl tokens = Ok names ->
     map localName rs
     = map (fun t => variable tpl ++ t ++ file_type tpl) tokens).
Proof.
  intros Hok Hl.
  pose proof (fetchAll_shape urls names k Hl) as Hs.
  pose proof (fun i r => fetchAll_result_at urls names k i r Hl) as Hat.
  destruct (fetchAll server urls names k) as [rs k'].
  destruct Hs as (Hlen & Hu & Hn & _). cbn [fst] in Hat.
  exists rs, k'. repeat split; try assumption.
  - apply Forall_lookup. intros i r Hr.
    destruct (Hat i r Hr) as (u & _ & _ & _ & ->). apply Hok.
  - intros Hnames. rewrite localNames_eq in Hnames.
    injection Hnames as <-. exact Hn.
Qed.

Lemma failures_none (rs : list FetchResult) :
  Forall (fun r => success r = true) rs ->
  failures rs = 0 /\ successes rs = List.length rs.
Proof.
  unfold failures, successes. induction 1 as [|r rs Hr _ [IHf IHs]];
    [split; reflexivity |].
  cbn [List.filter]. rewrite Hr. cbn [negb List.length]. split; congruence.
Qed.

(** A batch whose only failure is at index [j]. *)
Lemma failures_one (rs : list FetchResult) (j : nat) :
  j < List.length rs ->
  (forall i r, rs !! i = Some r -> (success r = false <-> i = j)) ->
  failures rs = 1 /\ successes rs = List.length rs - 1.
Proof.
  revert j. induction rs as [|r rs IH]; intros j Hj H; [cbn in Hj; lia |].
  unfold failures, successes in *. cbn [List.filter List.length].
  destruct j as [|j].
  - assert (Hr : success r = false) by now apply (H 0 r).
    assert (Hall : Forall (fun r => success r = true) rs).
    { apply Forall_lookup. intros i r' Hr'.
      destruct (success r') eqn:E; [reflexivity |].
      apply (H (S i) r' Hr') in E. discriminate. }
    destruct (failures_none rs Hall) as [Hf Hs].
    unfold failures, successes in Hf, Hs.
    rewrite Hr. cbn [negb List.length]. rewrite Hf, Hs. lia.
  - assert (Hr : success r = true).
    { destruct (success r) eqn:E; [reflexivity |].
      apply (H 0 r eq_refl) in E. discriminate. }
    cbn [List.length] in Hj.
    destruct (IH j ltac:(lia)) as [Hf Hs].
    { intros i r' Hr'. rewrite (H (S i) r' Hr'). lia. }
    rewrite Hr. cbn [negb List.length]. rewrite Hf, Hs. lia.
Qed.

(** C6: with a collaborator that fails on exactly one index [j],
    [fetchAll] on N pairs still returns N results, one of them marked
    failure, at index [j], and the other N-1 marked success; all N
    retrievals have been issued when it returns. *)
Theorem fetchAll_one_failure (urls names : list string) (k : Kernel) (j : nat) :
  List.length urls = List.length names ->
  j < List.length urls ->
  (forall i u, urls !! i = Some u ->
               (is_body (server (calls k + i) u) = false <-> i = j)) ->
  exists rs k',
    fetchAll server urls names k = (rs, k') /\
    List.length rs = List.length urls /\
    failures rs = 1 /\
    successes rs = List.length urls - 1 /\
    calls k' = calls k + List.length urls /\
    (exists r, rs !! j = Some r /\ success r = false) /\
    (forall i r, rs !! i = Some r -> i <> j -> success r = true).
Proof.
  intros Hl Hj Hone.
  pose proof (fetchAll_shape urls names k Hl) as Hs.
  pose proof (fun i r => fetchAll_result_at urls names k i r Hl) as Hat.
  destruct (fetchAll server urls names k) as [rs k'].
  destruct Hs as (Hlen & _ & _ & Hc & _). cbn [fst] in Hat.
  assert (Hpt : forall i r, rs !! i = Some r -> (success r = false <-> i = j)).
  { intros i r Hr. destruct (Hat i r Hr) as (u & Hu & _ & _ & ->).
    now apply Hone. }
  destruct (failures_one rs j ltac:(lia) Hpt) as [Hf Hsucc].
  exists rs, k'. repeat split; try assumption; try lia.
  - assert (Hjr : j < List.length rs) by lia.
    apply lookup_lt_is_Some in Hjr as [r Hr]. exists r. split; [exact Hr |].
    now apply (Hpt j r Hr).
  - intros i r Hr Hne. destruct (success r) eqn:E; [reflexivity |].
    apply (Hpt i r Hr) in E. contradiction.
Qed.

(** *** Files *)

(** The batch leaves alone every file whose name is not a local name of
    the batch. *)
Lemma fetchAll_frame (urls names : list string) (k : Kernel) (f : string) :
  f ∉ names ->
  files (snd (fetchAll server urls names k)) !! f = files k !! f.
Proof.
  revert names k. induction urls as [|u urls IH]; intros [|n names] k Hf;
    try reflexivity.
  rewrite fetchAll_cons.
  pose proof (fetchOne_facts u n k) as H1.
  destruct (fetchOne server u n k) as [r k1].
  destruct H1 as (_ & _ & _ & _ & _ & Hframe & _).
  apply not_elem_of_cons in Hf as [Hne Hf].
  specialize (IH names k1 Hf).
  destruct (fetchAll server urls names k1) as [rs k2]. cbn [snd] in *.
  rewrite IH. now apply Hframe.
Qed.

(** After the batch, a file is as it was before, or it holds the body
    retrieved by a successful item of that local name. *)
Lemma fetchAll_files (urls names : list string) (k : Kernel) (f : string) :
  let (rs, k') := fetchAll server urls names k in
  files k' !! f = files k !! f \/
  exists i r b, rs !! i = Some r /\ localName r = f /\ success r = true /\
                server (calls k + i) (url r) = Body b /\
                files k' !! f = Some b.
Proof.
  revert names k. induction urls as [|u urls IH]; intros [|n names] k;
    try (left; reflexivity).
  rewrite fetchAll_cons, fetchOne_eq.
  destruct (server (calls k) u) as [b|d] eqn:Es.
  - specialize (IH names
      (mkKernel (globals k) (<[n := b]> (files k)) (S (calls k)))).
    destruct (fetchAll server urls names _) as [rs k2].
    cbn [files calls] in IH. destruct IH as [IH | (i & r & b' & Hr & Hn & Hs & Hb & Hf)].
    + destruct (decide (f = n)) as [-> | Hne].
      * right. exists 0, (mkFetchResult u n true None), b.
        rewrite Nat.add_0_r. cbn. repeat split; try assumption.
        now rewrite IH, lookup_insert_eq.
      * left. now rewrite IH, lookup_insert_ne.
    + right. exists (S i), r, b'.
      replace (calls k + S i) with (S (calls k) + i) by lia.
      repeat split; assumption.
  - specialize (IH names (mkKernel (globals k) (files k) (S (calls k)))).
    destruct (fetchAll server urls names _) as [rs k2].
    cbn [files calls] in IH. destruct IH as [IH | (i & r & b' & Hr & Hn & Hs & Hb & Hf)].
    + left. exact IH.
    + right. exists (S i), r, b'.
      replace (calls k + S i) with (S (calls k) + i) by lia.
      repeat split; assumption.
Qed.

(** C8: the retrieval of one item writes the body it got under the given
    local name, replacing whatever file had that name, and leaves every
    other file as it was; a failed retrieval changes no file.  After a
    whole batch, a file differs from what it was only if a successful
    item of that local name retrieved its content; the assignments of
    the notebook change no file. *)
Theorem urlretrieve_writes_only_its_file (u n f : string) (k : Kernel)
    (urls names : list string) (x : string) (e : Expr) :
  (match server (calls k) u with
   | Body b =>
       urlretrieve server (VStr u) (VStr n) k
       = (Ok tt, mkKernel (globals k) (<[n := b]> (files k)) (S (calls k)))
       /\ files (snd (urlretrieve server (VStr u) (VStr n) k)) !! n = Some b
   | Failure d =>
       fst (urlretrieve server (VStr u) (VStr n) k) = Raise (URLError d)
       /\ files (snd (urlretrieve server (VStr u) (VStr n) k)) = files k
   end) /\
  (f <> n ->
   files (snd (urlretrieve server (VStr u) (VStr n) k)) !! f = files k !! f) /\
  (files (snd (fetchAll server urls names k)) !! f <> files k !! f ->
   exists i r b,
     fst (fetchAll server urls names k) !! i = Some r /\
     localName r = f /\ success r = true /\
     server (calls k + i) (url r) = Body b /\
     files (snd (fetchAll server urls names k)) !! f = Some b) /\
  files (snd (assign x e k)) = files k.
Proof.
  split; [| split; [| split]].
  - unfold urlretrieve. destruct (server (calls k) u); cbn.
    + split; [reflexivity | apply lookup_insert_eq].
    + split; reflexivity.
  - intros Hne. unfold urlretrieve. destruct (server (calls k) u); cbn.
    + now apply lookup_insert_ne.
    + reflexivity.
  - intros Hch. pose proof (fetchAll_files urls names k f) as H.
    destruct (fetchAll server urls names k) as [rs k']. cbn [fst snd] in *.
    destruct H as [H | H]; [contradiction | exact H].
  - apply assign_frame.
Qed.

(** With pairwise distinct local names, the file of every successful
    item still holds, after the batch, the body that item retrieved. *)
Lemma fetchAll_keeps_bodies (urls names : list string) (k : Kernel) (i : nat)
    (r : FetchResult) (b : list Byte.byte) :
  List.length urls = List.length names ->
  NoDup names ->
  fst (fetchAll server urls names k) !! i = Some r ->
  server (calls k + i) (url r) = Body b ->
  files (snd (fetchAll server urls names k)) !! localName r = Some b.
Proof.
  revert names k i. induction urls as [|u urls IH]; intros [|n names] k i Hl Hnd Hr Hb;
    try discriminate.
  rewrite fetchAll_cons in *.
  pose proof (fetchOne_facts u n k) as H1.
  destruct (fetchOne server u n k) as [r1 k1].
  destruct H1 as (Hu & Hn & _ & Hc & _ & _ & Hw).
  apply NoDup_cons in Hnd as [Hnin Hnd].
  pose proof (fetchAll_frame urls names k1 n Hnin) as Hfr.
  specialize (IH names k1).
  destruct (fetchAll server urls names k1) as [rs k2]. cbn [fst snd] in *.
  destruct i as [|i].
  - injection Hr as <-. rewrite Nat.add_0_r, Hu in Hb. rewrite Hb in Hw.
    rewrite Hn, Hfr. exact Hw.
  - apply (IH i); [now injection Hl | assumption | exact Hr |].
    rewrite Hc. now replace (S (calls k) + i) with (calls k + S i) by lia.
Qed.

(** *** The state machine *)

Lemma status_of_final (r : FetchResult) : final (item_of r).
Proof. unfold final, item_of, status_of. cbn. now destruct (success r). Qed.

Lemma step_final (items : list item) (k : Kernel) :
  Forall final items -> step server items k = None.
Proof.
  induction 1 as [|it items Hit _ IH]; [reflexivity |].
  cbn [step]. unfold final in Hit.
  destruct (item_status it); [contradiction | now rewrite IH..].
Qed.

(** Items in a final state are passed over. *)
Lemma step_skip (done items : list item) (k : Kernel) :
  Forall final done ->
  step server (done ++ items) k
  = match step server items k with
    | Some (items', k') => Some ((done ++ items')%list, k')
    | None => None
    end.
Proof.
  induction 1 as [|it done Hit _ IH].
  - cbn [app]. now destruct (step server items k) as [[? ?]|].
  - cbn [app step]. unfold final in Hit.
    destruct (item_status it); [contradiction | |];
      rewrite IH; now destruct (step server items k) as [[? ?]|].
Qed.

Lemma step_pending (u n : string) (urls names : list string) (k : Kernel) :
  step server (pending (u :: urls) (n :: names)) k
  = let (r, k') := fetchOne server u n k in
    Some (item_of r :: pending urls names, k').
Proof.
  cbn [pending step item_status item_url item_name].
  rewrite fetchOne_eq. now destruct (server (calls k) u).
Qed.

Lemma pending_nil_r (urls : list string) : pending urls [] = [].
Proof. now destruct urls. Qed.

(** A transition takes the first Pending item, in index order, to
    Fetched or Failed, issues one retrieval, and changes no other item. *)
Lemma step_spec (items items' : list item) (k k' : Kernel) :
  step server items k = Some (items', k') ->
  exists i it r,
    items !! i = Some it /\ item_status it = Pending /\
    Forall final (take i items) /\
    fetchOne server (item_url it) (item_name it) k = (r, k') /\
    items' = <[i := mkItem (item_url it) (item_name it) (status_of r)]> items.
Proof.
  revert items'. induction items as [|it items IH]; intros items' H;
    [discriminate |].
  cbn [step] in H. destruct (item_status it) eqn:Es.
  - destruct (fetchOne server (item_url it) (item_name it) k) as [r k1] eqn:Ef.
    injection H as <- <-. exists 0, it, r. repeat split; try assumption.
    constructor.
  - destruct (step server items k) as [[rest k1]|] eqn:E; [| discriminate].
    injection H as <- <-.
    destruct (IH rest eq_refl) as (i & it' & r & Hi & Hp & Hd & Hf & ->).
    exists (S i), it', r. repeat split; try assumption.
    cbn [take]. constructor; [unfold final; congruence | exact Hd].
  - destruct (step server items k) as [[rest k1]|] eqn:E; [| discriminate].
    injection H as <- <-.
    destruct (IH rest eq_refl) as (i & it' & r & Hi & Hp & Hd & Hf & ->).
    exists (S i), it', r. repeat split; try assumption.
    cbn [take]. constructor; [unfold final; congruence | exact Hd].
Qed.

(** No transition leaves Fetched or Failed. *)
Lemma step_keeps_final (items items' : list item) (k k' : Kernel) (j : nat)
    (it : item) :
  step server items k = Some (items', k') ->
  items !! j = Some it -> final it -> items' !! j = Some it.
Proof.
  intros H Hj Hf.
  destruct (step_spec _ _ _ _ H) as (i & it' & r & Hi & Hp & _ & _ & ->).
  rewrite list_lookup_insert_ne; [exact Hj |].
  intros ->. unfold final in Hf. congruence.
Qed.

Lemma run_keeps_final (n : nat) (items : list item) (k : Kernel) (j : nat)
    (it : item) :
  items !! j = Some it -> final it ->
  fst (run server n items k) !! j = Some it.
Proof.
  revert items k. induction n as [|n IH]; intros items k Hj Hf; [exact Hj |].
  cbn [run]. destruct (step server items k) as [[items' k']|] eqn:E;
    [| exact Hj].
  apply IH; [| exact Hf]. now apply (step_keeps_final items items' k k').
Qed.

(** After [n] transitions the first [n] items hold the results of
    [fetchAll] on the first [n] pairs, and the others are still Pending. *)
Lemma run_done (n : nat) (done : list item) (urls names : list string)
    (k : Kernel) :
  Forall final done ->
  run server n (done ++ pending urls names) k
  = let (rs, k') := fetchAll server (take n urls) (take n names) k in
    ((done ++ map item_of rs ++ pending (drop n urls) (drop n names))%list, k').
Proof.
  revert done urls names k. induction n as [|n IH]; intros done urls names k Hd.
  - rewrite !take_0, !drop_0. reflexivity.
  - cbn [run]. rewrite step_skip by assumption.
    destruct urls as [|u urls]; [| destruct names as [|nm names]].
    + cbn. reflexivity.
    + cbn. now rewrite pending_nil_r.
    + rewrite step_pending. cbn [take drop]. rewrite fetchAll_cons.
      destruct (fetchOne server u nm k) as [r k1].
      replace (done ++ item_of r :: pending urls names)%list
        with ((done ++ [item_of r]) ++ pending urls names)%list
        by now rewrite <- app_assoc.
      rewrite IH.
      * destruct (fetchAll server (take n urls) (take n names) k1) as [rs k2].
        cbn [map]. now rewrite <- app_assoc.
      * apply Forall_app. split; [exact Hd |].
        constructor; [apply status_of_final | constructor].
Qed.

(** C7: the batch is a sequential machine.  A transition takes the
    first Pending item, in index order, to Fetched or Failed with one
    retrieval and changes no other item; an item that is Fetched or
    Failed stays as it is through any number of transitions; started
    with every item Pending, the machine has after [n] transitions the
    results of [fetchAll] for the first [n] pairs and the other items
    still Pending, and after as many transitions as there are pairs it
    holds the results of [fetchAll]. *)
Theorem batch_is_sequential_machine (items items' : list item)
    (k k' : Kernel) (urls names : list string) (n j : nat) (it : item) :
  (step server items k = Some (items', k') ->
   exists i it0 r,
     items !! i = Some it0 /\ item_status it0 = Pending /\
     Forall (fun x => item_status x <> Pending) (take i items) /\
     fetchOne server (item_url it0) (item_name it0) k = (r, k') /\
     calls k' = S (calls k) /\
     items' = <[i := mkItem (item_url it0) (item_name it0)
                            (if success r then Fetched else Failed)]> items) /\
  (items !! j = Some it -> item_status it <> Pending ->
   fst (run server n items k) !! j = Some it) /\
  (List.length urls = List.length names ->
   run server n (pending urls names) k
   = ((map item_of (fst (fetchAll server (take n urls) (take n names) k))
       ++ pending (drop n urls) (drop n names))%list,
      snd (fetchAll server (take n urls) (take n names) k)) /\
   run server (List.length urls) (pending urls names) k
   = (map item_of (fst (fetchAll server urls names k)),
      snd (fetchAll server urls names k))).
Proof.
  split; [| split].
  - intros H.
    destruct (step_spec _ _ _ _ H) as (i & it0 & r & Hi & Hp & Hd & Hf & ->).
    exists i, it0, r. repeat split; try assumption.
    pose proof (fetchOne_facts (item_url it0) (item_name it0) k) as Hfacts.
    rewrite Hf in Hfacts. tauto.
  - apply run_keeps_final.
  - intros Hl.
    pose proof (run_done n [] urls names k (Forall_nil_2 _)) as Hn.
    pose proof (run_done (List.length urls) [] urls names k (Forall_nil_2 _)) as HN.
    cbn [app] in Hn, HN. split.
    + rewrite Hn.
      now destruct (fetchAll server (take n urls) (take n names) k).
    + assert (E1 : take (List.length urls) urls = urls) by apply firstn_all.
      assert (E2 : take (List.length urls) names = names)
        by (rewrite Hl; apply firstn_all).
      assert (E3 : drop (List.length urls) urls = []) by apply drop_all.
      rewrite HN, E1, E2, E3.
      destruct (fetchAll server urls names k) as [rs k2].
      cbn [pending fst snd]. now rewrite app_nil_r.
Qed.

End RetrievalProperties.

(** ** Distinct tokens *)

Lemma url_of_inj tpl (a b : string) : url_of tpl a = url_of tpl b -> a = b.
Proof.
  unfold url_of. intros H.
  do 6 apply append_inv_head in H. now apply append_inv_tail in H.
Qed.

Lemma name_of_inj tpl (a b : string) : name_of tpl a = name_of tpl b -> a = b.
Proof.
  unfold name_of. intros H.
  apply append_inv_head in H. now apply append_inv_tail in H.
Qed.

(** Pairwise distinct tokens give pairwise distinct URLs and local names. *)
Lemma buildPaths_NoDup tpl (tokens : list string) :
  NoDup tokens ->
  NoDup (map (url_of tpl) tokens) /\ NoDup (map (name_of tpl) tokens).
Proof.
  intros H. split.
  - change (NoDup (url_of tpl <$> tokens)).
    apply NoDup_fmap_2; [| exact H]. intros a b. apply url_of_inj.
  - change (NoDup (name_of tpl <$> tokens)).
    apply NoDup_fmap_2; [| exact H]. intros a b. apply name_of_inj.
Qed.

(** Run after the 2010 cell, the multi-year cell leaves the five tokens in
    [time] and their URLs in [filepaths]. *)
Lemma five_years_cells (k : Kernel) :
  let k' := snd (cell_five_years (snd (cell_filepaths k))) in
  fst (cell_five_years (snd (cell_filepaths k))) = print_result (globals k) /\
  globals k' !! "time" = Some (tokens_series five_years) /\
  rbind (name "filepaths" (globals k')) as_strings = buildPaths noaa five_years.
Proof.
  rewrite cell_filepaths_run. cbn [snd].
  destruct (cell_five_years_buildPaths noaa
    (mkKernel (<["filepaths" := VStr (url_of noaa "2010")]>
                 (bind_template noaa (VStr "2010") (globals k)))
              (files k) (calls k))) as (Hr & Ht & Hf).
  - pose proof (binds_bind_template noaa (VStr "2010") (globals k))
      as (Hh & Hd & Hl & Hv & Hf).
    unfold binds_template. cbn [globals]. repeat split; by simplify_map_eq.
  - cbn [globals] in Hr.
    rewrite print_result_insert, print_result_bind_template in Hr by discriminate.
    repeat split; assumption.
Qed.

(** C10: [range(1965, 1970)] turned into strings is the five tokens "1965"
    to "1969", strictly ascending, without 1970, and these are the tokens
    the multi-year cell leaves in [time].  The tokens being pairwise
    distinct, so are the URLs and the local names derived from them, for
    any template; hence after a batch over them the file of each successful
    item holds the body that item retrieved: no other item of the batch has
    overwritten it. *)
Theorem five_years_distinct (tpl : NamingTemplate)
    (server : nat -> string -> response) (k : Kernel) (i : nat)
    (r : FetchResult) (b : list Byte.byte) :
  range 1965 1970 = [1965; 1966; 1967; 1968; 1969]%Z /\
  StronglySorted Z.lt (range 1965 1970) /\
  five_years = ["1965"; "1966"; "1967"; "1968"; "1969"] /\
  globals (snd (cell_five_years (snd (cell_filepaths k)))) !! "time"
  = Some (tokens_series five_years) /\
  NoDup five_years /\
  exists urls names,
    buildPaths tpl five_years = Ok urls /\
    localNames tpl five_years = Ok names /\
    NoDup urls /\ NoDup names /\
    (fst (fetchAll server urls names k) !! i = Some r ->
     server (calls k + i) (url r) = Body b ->
     files (snd (fetchAll server urls names k)) !! localName r = Some b).
Proof.
  assert (Hnd : NoDup five_years).
  { apply (bool_decide_unpack _). vm_compute. exact I. }
  split; [reflexivity |]. split.
  { rewrite (eq_refl : range 1965 1970 = [1965; 1966; 1967; 1968; 1969]%Z).
    repeat (constructor; [| repeat constructor]); constructor. }
  split; [reflexivity |]. split; [apply five_years_cells |].
  split; [exact Hnd |].
  destruct (buildPaths_NoDup tpl five_years Hnd) as [Hu Hn].
  exists (map (url_of tpl) five_years), (map (name_of tpl) five_years).
  rewrite buildPaths_eq, localNames_eq. repeat split; try assumption.
  apply fetchAll_keeps_bodies; [now rewrite !length_map | exact Hn].
Qed.

Lemma fetchAll_all_succeed_witness :
  (forall n u, is_body (reliable n u) = true) /\
  List.length urls5 = List.length names5 /\
  localNames noaa five_years = Ok names5 /\
  exists rs k',
    fetchAll reliable urls5 names5 fresh_kernel = (rs, k') /\
    List.length rs = List.length urls5 /\
    Forall (fun r => success r = true) rs /\
    map url rs = urls5 /\
    map localName rs = names5 /\
    map localName rs
    = map (fun t => variable noaa ++ t ++ file_type noaa) five_years.
Proof.
  assert (H1 : forall n u, is_body (reliable n u) = true) by reflexivity.
  assert (H2 : List.length urls5 = List.length names5) by reflexivity.
  assert (H3 : localNames noaa five_years = Ok names5) by (vm_compute; reflexivity).
  destruct (fetchAll_all_succeed reliable urls5 names5 fresh_kernel noaa
              five_years H1 H2) as (rs & k' & Hrun & Hlen & Hall & Hu & Hn & Ht).
  repeat (split; [assumption |]). exists rs, k'.
  repeat (split; [assumption |]). exact (Ht H3).
Defined.

Lemma flaky_fails_once (i : nat) (u : string) :
  is_body (flaky (calls fresh_kernel + i) u) = false <-> i = 1.
Proof.
  unfold flaky. cbn [calls fresh_kernel Nat.add].
  destruct (Nat.eqb_spec i 1); cbn [is_body]; split; intros; congruence.
Qed.

Lemma fetchAll_one_failure_witness :
  List.length urls5 = List.length names5 /\
  1 < List.length urls5 /\
  (forall i u, urls5 !! i = Some u ->
               (is_body (flaky (calls fresh_kernel + i) u) = false <-> i = 1)) /\
  exists rs k',
    fetchAll flaky urls5 names5 fresh_kernel = (rs, k') /\
    List.length rs = List.length urls5 /\
    failures rs = 1 /\
    successes rs = List.length urls5 - 1 /\
    calls k' = calls fresh_kernel + List.length urls5 /\
    (exists r, rs !! 1 = Some r /\ success r = false) /\
    (forall i r, rs !! i = Some r -> i <> 1 -> success r = true).
Proof.
  assert (H1 : List.length urls5 = List.length names5) by reflexivity.
  assert (H2 : 1 < List.length urls5) by (vm_compute; lia).
  assert (H3 : forall i u, urls5 !! i = Some u ->
               (is_body (flaky (calls fresh_kernel + i) u) = false <-> i = 1))
    by (intros i u _; apply flaky_fails_once).
  repeat (split; [assumption |]).
  exact (fetchAll_one_failure flaky urls5 names5 fresh_kernel 1 H1 H2 H3).
Defined.

Lemma batch_is_sequential_machine_witness :
  step flaky batch3 fresh_kernel = Some (batch3', kernel3') /\
  batch3 !! 0 = Some (mkItem "u0" "n0" Fetched) /\
  item_status (mkItem "u0" "n0" Fetched) <> Pending /\
  List.length urls5 = List.length names5 /\
  (exists i it0 r,
     batch3 !! i = Some it0 /\ item_status it0 = Pending /\
     Forall (fun x => item_status x <> Pending) (take i batch3) /\
     fetchOne flaky (item_url it0) (item_name it0) fresh_kernel = (r, kernel3') /\
     calls kernel3' = S (calls fresh_kernel) /\
     batch3' = <[i := mkItem (item_url it0) (item_name it0)
                             (if success r then Fetched else Failed)]> batch3) /\
  fst (run flaky 2 batch3 fresh_kernel) !! 0 = Some (mkItem "u0" "n0" Fetched) /\
  run flaky 2 (pending urls5 names5) fresh_kernel
  = ((map item_of (fst (fetchAll flaky (take 2 urls5) (take 2 names5) fresh_kernel))
      ++ pending (drop 2 urls5) (drop 2 names5))%list,
     snd (fetchAll flaky (take 2 urls5) (take 2 names5) fresh_kernel)) /\
  run flaky (List.length urls5) (pending urls5 names5) fresh_kernel
  = (map item_of (fst (fetchAll flaky urls5 names5 fresh_kernel)),
     snd (fetchAll flaky urls5 names5 fresh_kernel)).
Proof.
  assert (H1 : step flaky batch3 fresh_kernel = Some (batch3', kernel3'))
    by (vm_compute; reflexivity).
  assert (H2 : batch3 !! 0 = Some (mkItem "u0" "n0" Fetched)) by reflexivity.
  assert (H3 : item_status (mkItem "u0" "n0" Fetched) <> Pending) by discriminate.
  assert (H4 : List.length urls5 = List.length names5) by reflexivity.
  destruct (batch_is_sequential_machine flaky batch3 batch3' fresh_kernel
              kernel3' urls5 names5 2 0 (mkItem "u0" "n0" Fetched))
    as (Hstep & Hback & Hrun).
  repeat (split; [assumption |]).
  split; [exact (Hstep H1) |]. split; [exact (Hback H2 H3) |].
  exact (Hrun H4).
Defined.

Lemma urlretrieve_writes_only_its_file_witness :
  (urlretrieve reliable (VStr (url_of noaa "1965")) (VStr "air.sig995.1965.nc")
     stale_kernel
   = (Ok tt, mkKernel ∅ (<["air.sig995.1965.nc" := body_nc]> (files stale_kernel)) 1)
   /\ files (snd (urlretrieve reliable (VStr (url_of noaa "1965"))
                    (VStr "air.sig995.1965.nc") stale_kernel))
      !! "air.sig995.1965.nc" = Some body_nc) /\
  "air.sig995.1966.nc" <> "air.sig995.1965.nc" /\
  files (snd (urlretrieve reliable (VStr (url_of noaa "1965"))
                (VStr "air.sig995.1965.nc") stale_kernel))
  !! "air.sig995.1966.nc" = files stale_kernel !! "air.sig995.1966.nc" /\
  files (snd (fetchAll reliable urls5 names5 stale_kernel)) !! "air.sig995.1966.nc"
  <> files stale_kernel !! "air.sig995.1966.nc" /\
  (exists i r b,
     fst (fetchAll reliable urls5 names5 stale_kernel) !! i = Some r /\
     localName r = "air.sig995.1966.nc" /\ success r = true /\
     reliable (calls stale_kernel + i) (url r) = Body b /\
     files (snd (fetchAll reliable urls5 names5 stale_kernel))
     !! "air.sig995.1966.nc" = Some b) /\
  files (snd (assign "time" years_expr stale_kernel)) = files stale_kernel.
Proof.
  assert (H1 : "air.sig995.1966.nc" <> "air.sig995.1965.nc") by discriminate.
  assert (H2 : files (snd (fetchAll reliable urls5 names5 stale_kernel))
               !! "air.sig995.1966.nc"
               <> files stale_kernel !! "air.sig995.1966.nc")
    by (vm_compute; discriminate).
  destruct (urlretrieve_writes_only_its_file reliable (url_of noaa "1965")
              "air.sig995.1965.nc" "air.sig995.1966.nc" stale_kernel
              urls5 names5 "time" years_expr) as (Hw & Hframe & Hbatch & Hassign).
  split; [exact Hw |]. split; [exact H1 |]. split; [exact (Hframe H1) |].
  split; [exact H2 |]. split; [exact (Hbatch H2) |]. exact Hassign.
Defined.

Lemma five_years_distinct_witness :
  range 1965 1970 = [1965; 1966; 1967; 1968; 1969]%Z /\
  StronglySorted Z.lt (range 1965 1970) /\
  five_years = ["1965"; "1966"; "1967"; "1968"; "1969"] /\
  globals (snd (cell_five_years (snd (cell_filepaths fresh_kernel)))) !! "time"
  = Some (tokens_series five_years) /\
  NoDup five_years /\
  buildPaths noaa five_years = Ok urls5 /\
  localNames noaa five_years = Ok names5 /\
  NoDup urls5 /\ NoDup names5 /\
  fst (fetchAll flaky urls5 names5 fresh_kernel) !! 0
  = Some (mkFetchResult (url_of noaa "1965") (name_of noaa "1965") true None) /\
  flaky (calls fresh_kernel + 0) (url_of noaa "1965") = Body body_nc /\
  files (snd (fetchAll flaky urls5 names5 fresh_kernel)) !! name_of noaa "1965"
  = Some body_nc.
Proof.
  destruct (five_years_distinct noaa flaky fresh_kernel 0
              (mkFetchResult (url_of noaa "1965") (name_of noaa "1965") true None)
              body_nc)
    as (Hr & Hs & Ht & Hc & Hnd & urls & names & Hu & Hn & Hdu & Hdn & Hkeep).
  assert (Eu : urls = urls5).
  { rewrite buildPaths_eq in Hu. now injection Hu. }
  assert (En : names = names5).
  { rewrite localNames_eq in Hn. now injection Hn. }
  subst urls names.
  assert (H1 : fst (fetchAll flaky urls5 names5 fresh_kernel) !! 0
               = Some (mkFetchResult (url_of noaa "1965") (name_of noaa "1965")
                                     true None))
    by (vm_compute; reflexivity).
  assert (H2 : flaky (calls fresh_kernel + 0) (url_of noaa "1965") = Body body_nc)
    by reflexivity.
  repeat (split; [assumption |]). exact (Hkeep H1 H2).
Defined.

(** * Further properties of the cells *)

(** ** Files and retrievals *)

Lemma assign_touches_no_file (x : string) (e : Expr) :
  touches_no_file (assign x e).
Proof. intros k. destruct (assign_frame x e k) as (Hf & Hc & _). now split. Qed.

Lemma seq_touches_no_file (s1 s2 : Stmt) :
  touches_no_file s1 -> touches_no_file s2 -> touches_no_file (s1 ;; s2).
Proof.
  intros H1 H2 k. unfold seq_stmt.
  destruct (H1 k) as [Hf Hc]. destruct (s1 k) as [[[]|ex] k1]; cbn [snd] in *.
  - destruct (H2 k1) as [Hf2 Hc2]. split; congruence.
  - now split.
Qed.

Lemma print_touches_no_file (args : list Expr) :
  touches_no_file (print_call args).
Proof. intros k. now rewrite print_call_snd. Qed.

(** X1: the two cells that build URLs issue no retrieval and write no
    file, whatever the kernel they run in and whether or not they raise. *)
Theorem url_cells_touch_no_file (k : Kernel) :
  files (snd (cell_filepaths k)) = files k /\
  calls (snd (cell_filepaths k)) = calls k /\
  files (snd (cell_five_years k)) = files k /\
  calls (snd (cell_five_years k)) = calls k.
Proof.
  assert (H1 : touches_no_file cell_filepaths).
  { unfold cell_filepaths.
    repeat (apply seq_touches_no_file; [apply assign_touches_no_file |]).
    apply print_touches_no_file. }
  assert (H2 : touches_no_file cell_five_years).
  { unfold cell_five_years.
    repeat (apply seq_touches_no_file; [apply assign_touches_no_file |]).
    apply print_touches_no_file. }
  destruct (H1 k), (H2 k). repeat split; assumption.
Qed.

(** ** Running the cells again *)

(** Decide a lookup in a chain of inserts, one key at a time. *)
Ltac split_key key i :=
  destruct (decide (key = i)) as [<- | ?]; [by simplify_map_eq |].


(** X3: running the multi-year cell a second time changes nothing,
    whether the cell succeeds or raises. *)
Theorem cell_five_years_idempotent (k : Kernel) :
  cell_five_years (snd (cell_five_years k)) = cell_five_years k.
Proof.
  rewrite (cell_five_years_eq (snd (cell_five_years k))).
  rewrite (cell_five_years_eq k).
  set (ints := VSeries (map OInt (range 1965 1970))).
  set (g2 := <["time" := tokens_series five_years]> (<["time" := ints]> (globals k))).
  destruct (filepaths_expr g2) as [v | e] eqn:E; cbn [snd globals files calls].
  - assert (E' : filepaths_expr
                   (<["time" := tokens_series five_years]>
                      (<["time" := ints]> (<["filepaths" := v]> g2)))
                 = Ok v).
    { rewrite <- E. apply filepaths_expr_reads.
      unfold agree_on, filepaths_reads, g2. repeat constructor; by simplify_map_eq. }
    rewrite E'. f_equal.
    { unfold g2. now rewrite !print_result_insert by discriminate. }
    f_equal. apply map_eq. intros i. unfold g2.
    split_key "filepaths" i. split_key "time" i. by simplify_map_eq.
  - assert (E' : filepaths_expr
                   (<["time" := tokens_series five_years]> (<["time" := ints]> g2))
                 = Raise e).
    { rewrite <- E. apply filepaths_expr_reads.
      unfold agree_on, filepaths_reads, g2. repeat constructor; by simplify_map_eq. }
    rewrite E'. do 2 f_equal. apply map_eq. intros i. unfold g2.
    split_key "time" i. by simplify_map_eq.
Qed.

(** ** Cells run out of order *)

(** X4: run in a namespace without [http_dir] (the 2010 cell has not been
    run), the multi-year cell raises [NameError] for [http_dir]; the two
    assignments before the failing one stay in effect, so [time] is
    already the Series of the five tokens, and [filepaths] is as it was. *)
Theorem cell_five_years_needs_template (k : Kernel) :
  globals k !! "http_dir" = None ->
  fst (cell_five_years k) = Raise (NameError "http_dir") /\
  globals (snd (cell_five_years k)) !! "time" = Some (tokens_series five_years) /\
  globals (snd (cell_five_years k)) !! "filepaths" = globals k !! "filepaths".
Proof.
  intros H. rewrite cell_five_years_eq.
  assert (E : filepaths_expr
                (<["time" := tokens_series five_years]>
                   (<["time" := VSeries (map OInt (range 1965 1970))]> (globals k)))
              = Raise (NameError "http_dir")).
  { unfold filepaths_expr, plus, name at 1.
    rewrite !lookup_insert_ne by discriminate. now rewrite H. }
  rewrite E. cbn [fst snd globals]. split; [reflexivity |].
  split; by simplify_map_eq.
Qed.

Lemma cell_five_years_needs_template_witness :
  globals fresh_kernel !! "http_dir" = None /\
  fst (cell_five_years fresh_kernel) = Raise (NameError "http_dir") /\
  globals (snd (cell_five_years fresh_kernel)) !! "time"
  = Some (tokens_series five_years) /\
  globals (snd (cell_five_years fresh_kernel)) !! "filepaths"
  = globals fresh_kernel !! "filepaths".
Proof.
  assert (H : globals fresh_kernel !! "http_dir" = None) by reflexivity.
  split; [exact H |]. exact (cell_five_years_needs_template fresh_kernel H).
Defined.

(** X5: run in a namespace without [filepaths] (no URL cell has been run),
    the download cell raises [NameError] for [filepaths] at its first
    statement and leaves the kernel exactly as it was: nothing is bound, no
    retrieval is issued, no file is written. *)
Theorem cell_urlretrieve_needs_filepaths (server : nat -> string -> response)
    (k : Kernel) :
  globals k !! "filepaths" = None ->
  cell_urlretrieve server k = (Raise (NameError "filepaths"), k).
Proof.
  intros H. unfold cell_urlretrieve, seq_stmt, assign at 1, name.
  now rewrite H.
Qed.

Lemma cell_urlretrieve_needs_filepaths_witness :
  globals fresh_kernel !! "filepaths" = None /\
  cell_urlretrieve reliable fresh_kernel
  = (Raise (NameError "filepaths"), fresh_kernel).
Proof.
  assert (H : globals fresh_kernel !! "filepaths" = None) by reflexivity.
  split; [exact H |]. exact (cell_urlretrieve_needs_filepaths reliable fresh_kernel H).
Defined.

(** ** Why the years are turned into strings *)

(** X6: with [time] holding ints, the [filepaths] expression raises
    [TypeError] for every template: for one int, and for a Series of ints
    that is not empty.  The [apply(str)] of the multi-year cell is what
    makes the concatenation succeed. *)
Theorem filepaths_expr_needs_strings (tpl : NamingTemplate) (z : Z)
    (zs : list Z) (g : gmap string val) :
  filepaths_expr (bind_template tpl (VObj (OInt z)) g) = Raise TypeError /\
  (zs <> [] ->
   filepaths_expr (bind_template tpl (VSeries (map OInt zs)) g) = Raise TypeError).
Proof.
  split.
  - pose proof (binds_bind_template tpl (VObj (OInt z)) g) as (Hh & Hd & Hl & Hv & Hf).
    pose proof (time_bind_template tpl (VObj (OInt z)) g) as Ht.
    eval_expr. reflexivity.
  - intros Hne. destruct zs as [|z0 zs]; [congruence |].
    pose proof (binds_bind_template tpl (VSeries (map OInt (z0 :: zs))) g)
      as (Hh & Hd & Hl & Hv & Hf).
    pose proof (time_bind_template tpl (VSeries (map OInt (z0 :: zs))) g) as Ht.
    eval_expr. reflexivity.
Qed.

Lemma filepaths_expr_needs_strings_witness :
  range 1965 1970 <> [] /\
  filepaths_expr (bind_template noaa (VObj (OInt 2010)) ∅) = Raise TypeError /\
  filepaths_expr (bind_template noaa (VSeries (map OInt (range 1965 1970))) ∅)
  = Raise TypeError.
Proof.
  assert (H : range 1965 1970 <> []) by discriminate.
  destruct (filepaths_expr_needs_strings noaa 2010 (range 1965 1970) ∅) as [H1 H2].
  split; [exact H |]. split; [exact H1 | exact (H2 H)].
Defined.

(** ** The download cell *)

(** X7: run after the multi-year cell, where [filepaths] is a Series, the
    download cell binds [url] and [filename] to Series and then raises
    [TypeError] at the call, before any retrieval: no file is written and
    the retrieval count is unchanged.  One call cannot fetch the five
    files. *)
Theorem cell_urlretrieve_rejects_series (server : nat -> string -> response)
    (tpl : NamingTemplate) (k : Kernel) :
  binds_template tpl (globals k) ->
  fst (cell_urlretrieve server (snd (cell_five_years k))) = Raise TypeError /\
  globals (snd (cell_urlretrieve server (snd (cell_five_years k)))) !! "url"
  = Some (tokens_series (map (url_of tpl) five_years)) /\
  globals (snd (cell_urlretrieve server (snd (cell_five_years k)))) !! "filename"
  = Some (tokens_series (map (name_of tpl) five_years)) /\
  files (snd (cell_urlretrieve server (snd (cell_five_years k)))) = files k /\
  calls (snd (cell_urlretrieve server (snd (cell_five_years k)))) = calls k.
Proof.
  intros Hb. rewrite cell_five_years_eq.
  set (g2 := <["time" := tokens_series five_years]>
               (<["time" := VSeries (map OInt (range 1965 1970))]> (globals k))).
  assert (Hb2 : binds_template tpl g2).
  { destruct Hb as (Hh & Hd & Hl & Hv & Hf).
    unfold binds_template, g2. repeat split; by simplify_map_eq. }
  assert (Ht2 : g2 !! "time" = Some (tokens_series five_years))
    by (unfold g2; by simplify_map_eq).
  rewrite (filepaths_expr_series tpl five_years g2 Hb2 Ht2). cbn [snd].
  set (urls := tokens_series (map (url_of tpl) five_years)).
  set (g3 := <["url" := urls]> (<["filepaths" := urls]> g2)).
  assert (Hb3 : binds_template tpl g3).
  { destruct Hb2 as (Hh & Hd & Hl & Hv & Hf).
    unfold binds_template, g3. repeat split; by simplify_map_eq. }
  assert (Ht3 : g3 !! "time" = Some (tokens_series five_years))
    by (unfold g3; by simplify_map_eq).
  assert (Hrun : cell_urlretrieve server
                   (mkKernel (<["filepaths" := urls]> g2) (files k) (calls k))
                 = (Raise TypeError,
                    mkKernel (<["filename" := tokens_series (map (name_of tpl) five_years)]> g3)
                             (files k) (calls k))).
  { unfold cell_urlretrieve, seq_stmt, assign at 1, name.
    cbn [globals files calls]. rewrite lookup_insert_eq. fold g3.
    unfold assign. cbn [globals files calls].
    rewrite (filename_expr_series tpl five_years g3 Hb3 Ht3).
    unfold call2, name. cbn [globals].
    rewrite lookup_insert_ne by discriminate. unfold g3 at 1.
    rewrite !lookup_insert_eq. reflexivity. }
  rewrite Hrun. cbn [fst snd globals files calls].
  repeat split; unfold g3; by simplify_map_eq.
Qed.

Lemma cell_urlretrieve_rejects_series_witness :
  binds_template noaa (globals kernel_2010) /\
  fst (cell_urlretrieve reliable (snd (cell_five_years kernel_2010)))
  = Raise TypeError /\
  globals (snd (cell_urlretrieve reliable (snd (cell_five_years kernel_2010))))
  !! "url" = Some (tokens_series (map (url_of noaa) five_years)) /\
  globals (snd (cell_urlretrieve reliable (snd (cell_five_years kernel_2010))))
  !! "filename" = Some (tokens_series (map (name_of noaa) five_years)) /\
  files (snd (cell_urlretrieve reliable (snd (cell_five_years kernel_2010))))
  = files kernel_2010 /\
  calls (snd (cell_urlretrieve reliable (snd (cell_five_years kernel_2010))))
  = calls kernel_2010.
Proof.
  assert (H : binds_template noaa (globals kernel_2010)).
  { unfold binds_template. repeat split; vm_compute; reflexivity. }
  split; [exact H |].
  exact (cell_urlretrieve_rejects_series reliable noaa kernel_2010 H).
Defined.

(** The kernel after the 2010 cell and a download that succeeds. *)
Lemma after_download_body (server : nat -> string -> response) (k : Kernel)
    (b : list Byte.byte) :
  server (calls k) (url_of noaa "2010") = Body b ->
  after_download server k
  = mkKernel (<["filename" := VStr (name_of noaa "2010")]>
                (<["url" := VStr (url_of noaa "2010")]>
                   (<["filepaths" := VStr (url_of noaa "2010")]>
                      (bind_template noaa (VStr "2010") (globals k)))))
             (<[name_of noaa "2010" := b]> (files k)) (S (calls k)).
Proof.
  intros Hs. unfold after_download. rewrite cell_filepaths_run. cbn [snd].
  rewrite (cell_urlretrieve_str server noaa "2010" (url_of noaa "2010")).
  - unfold urlretrieve. cbn [calls globals files]. now rewrite Hs.
  - pose proof (binds_bind_template noaa (VStr "2010") (globals k))
      as (Hh & Hd & Hl & Hv & Hf).
    unfold binds_template. cbn [globals]. repeat split; by simplify_map_eq.
  - cbn [globals]. rewrite lookup_insert_ne by discriminate.
    apply time_bind_template.
  - cbn [globals]. apply lookup_insert_eq.
Qed.

(** X8: after the 2010 cell and a first successful download, running the
    download cell again, when its retrieval succeeds too, asks for the same
    URL and writes under the same local name: the second body replaces the
    first in that one file, no second file appears, two retrievals have
    been issued, and the cell raises only at its [print], when the
    namespace has rebound [print]. *)
Theorem download_again_overwrites (server : nat -> string -> response)
    (k : Kernel) (b1 b2 : list Byte.byte) :
  server (calls k) (url_of noaa "2010") = Body b1 ->
  server (S (calls k)) (url_of noaa "2010") = Body b2 ->
  files (after_download server k) = <[name_of noaa "2010" := b1]> (files k) /\
  files (snd (cell_urlretrieve server (after_download server k)))
  = <[name_of noaa "2010" := b2]> (files k) /\
  calls (snd (cell_urlretrieve server (after_download server k))) = calls k + 2 /\
  fst (cell_urlretrieve server (after_download server k))
  = match globals k !! "print" with
    | Some _ => Raise TypeError
    | None => Ok tt
    end.
Proof.
  intros Hs1 Hs2. rewrite (after_download_body server k b1 Hs1). cbn [files].
  split; [reflexivity |].
  rewrite (cell_urlretrieve_str server noaa "2010" (url_of noaa "2010")).
  - cbn [calls globals files]. rewrite Hs2. cbn [fst snd files calls].
    split; [apply insert_insert_eq |]. split; [lia |].
    now rewrite !print_result_insert, print_result_bind_template by discriminate.
  - pose proof (binds_bind_template noaa (VStr "2010") (globals k))
      as (Hh & Hd & Hl & Hv & Hf).
    unfold binds_template. cbn [globals]. repeat split; by simplify_map_eq.
  - cbn [globals]. rewrite !lookup_insert_ne by discriminate.
    apply time_bind_template.
  - cbn [globals]. by simplify_map_eq.
Qed.

Lemma download_again_overwrites_witness :
  reliable (calls stale_kernel) (url_of noaa "2010") = Body body_nc /\
  reliable (S (calls stale_kernel)) (url_of noaa "2010") = Body body_nc /\
  files (after_download reliable stale_kernel)
  = <[name_of noaa "2010" := body_nc]> (files stale_kernel) /\
  files (snd (cell_urlretrieve reliable (after_download reliable stale_kernel)))
  = <[name_of noaa "2010" := body_nc]> (files stale_kernel) /\
  calls (snd (cell_urlretrieve reliable (after_download reliable stale_kernel)))
  = calls stale_kernel + 2 /\
  fst (cell_urlretrieve reliable (after_download reliable stale_kernel))
  = match globals stale_kernel !! "print" with
    | Some _ => Raise TypeError
    | None => Ok tt
    end.
Proof.
  assert (H1 : reliable (calls stale_kernel) (url_of noaa "2010") = Body body_nc)
    by reflexivity.
  assert (H2 : reliable (S (calls stale_kernel)) (url_of noaa "2010") = Body body_nc)
    by reflexivity.
  split; [exact H1 |]. split; [exact H2 |].
  exact (download_again_overwrites reliable stale_kernel body_nc body_nc H1 H2).
Defined.

(** X9: after the 2010 cell and a download whose retrieval succeeded,
    [os.listdir()] shows the names it showed before and the local name of
    the 2010 file, and no other name. *)
Theorem listdir_after_download_cell (server : nat -> string -> response)
    (k : Kernel) (b : list Byte.byte) (f : string) :
  server (calls k) (url_of noaa "2010") = Body b ->
  (f ∈ listdir (after_download server k)
   <-> f = name_of noaa "2010" \/ f ∈ listdir k).
Proof.
  intros Hs. rewrite (after_download_body server k b Hs).
  rewrite !listdir_spec. cbn [files].
  set (n := name_of noaa "2010"). clearbody n.
  rewrite lookup_insert_is_Some. split.
  - intros [<- | [_ H]]; [left; reflexivity | right; exact H].
  - intros [-> | H]; [left; reflexivity |].
    destruct (decide (n = f)) as [E | E];
      [left; exact E | right; split; [exact E | exact H]].
Qed.

Lemma listdir_after_download_cell_witness :
  reliable (calls stale_kernel) (url_of noaa "2010") = Body body_nc /\
  ("air.sig995.1965.nc" ∈ listdir (after_download reliable stale_kernel)
   <-> "air.sig995.1965.nc" = name_of noaa "2010"
       \/ "air.sig995.1965.nc" ∈ listdir stale_kernel).
Proof.
  assert (H : reliable (calls stale_kernel) (url_of noaa "2010") = Body body_nc)
    by reflexivity.
  split; [exact H |].
  exact (listdir_after_download_cell reliable stale_kernel body_nc
           "air.sig995.1965.nc" H).
Defined.

(** ** Other years *)

Lemma to_int_not_nil (z : Z) :
  Z.to_int z <> Decimal.Pos Decimal.Nil /\ Z.to_int z <> Decimal.Neg Decimal.Nil.
Proof.
  destruct z as [|p|p]; cbn; split; try discriminate;
    intros [= H]; now apply (DecimalPos.Unsigned.to_uint_nonnil p).
Qed.

(** [str] gives different ints different strings. *)
Lemma str_int_inj (a b : Z) : str (OInt a) = str (OInt b) -> a = b.
Proof.
  cbn [str]. intros H. apply (f_equal NilZero.int_of_string) in H.
  destruct (to_int_not_nil a) as [Ha1 Ha2].
  destruct (to_int_not_nil b) as [Hb1 Hb2].
  rewrite !NilZero.isi in H by assumption.
  injection H as H. now apply DecimalZ.to_int_inj.
Qed.


Lemma range_In (start stop z : Z) :
  In z (range start stop) <-> (start <= z < stop)%Z.
Proof.
  unfold range. rewrite in_map_iff. split.
  - intros (i & <- & Hi). apply in_seq in Hi. lia.
  - intros H. exists (Z.to_nat (z - start)). split; [lia |].
    apply in_seq. lia.
Qed.

Lemma range_NoDup (start stop : Z) : NoDup (range start stop).
Proof.
  unfold range. change (NoDup ((fun i => (start + Z.of_nat i)%Z) <$> seq 0 (Z.to_nat (stop - start)))).
  apply NoDup_fmap_2; [| apply NoDup_seq]. intros i j H. lia.
Qed.

Lemma year_tokens_NoDup (start stop : Z) : NoDup (year_tokens start stop).
Proof.
  unfold year_tokens. rewrite map_map.
  change (NoDup ((fun z => str (OInt z)) <$> range start stop)).
  apply NoDup_fmap_2; [| apply range_NoDup]. intros a b. apply str_int_inj.
Qed.


Lemma all_from_spec (p : Z -> bool) (n : nat) (z x : Z) :
  all_from p z n = true -> (z <= x < z + Z.of_nat n)%Z -> p x = true.
Proof.
  revert z. induction n as [|n IH]; intros z H Hx; [lia |].
  cbn [all_from] in H. apply andb_true_iff in H as [Hz H].
  destruct (Z.eq_dec x z) as [-> | Hne]; [exact Hz |].
  apply (IH (Z.succ z) H). lia.
Qed.

(** Every year from 1000 to 9999 is written with four digits. *)
Lemma four_digit_years_checked :
  all_from (fun z => four_digits (str (OInt z))) 1000 (90 * 100) = true.
Proof. vm_compute. reflexivity. Qed.

Lemma year_tokens_four_digits (start stop : Z) :
  (1000 <= start)%Z -> (stop <= 10000)%Z ->
  digit_tokens 4 (year_tokens start stop).
Proof.
  intros Hs Ht. unfold digit_tokens, year_tokens. rewrite map_map.
  apply List.Forall_forall. intros t Hin.
  apply in_map_iff in Hin as (z & <- & Hz). apply range_In in Hz.
  pose proof (all_from_spec _ _ _ z four_digit_years_checked ltac:(lia)) as Hall.
  unfold four_digits in Hall. apply andb_true_iff in Hall as [Hl Hd].
  apply Nat.eqb_eq in Hl. now split.
Qed.

(** X11: for years of four digits (1000 <= start, stop <= 10000) and the
    template of the notebook, [buildPaths] succeeds and no URL contains
    the token of another index: each link mentions one year only. *)
Theorem four_digit_years_exclusive (start stop : Z) (i j : nat)
    (ui tj : string) :
  (1000 <= start)%Z -> (stop <= 10000)%Z ->
  exists urls,
    buildPaths noaa (year_tokens start stop) = Ok urls /\
    (urls !! i = Some ui -> year_tokens start stop !! j = Some tj ->
     i <> j -> contains tj ui = false).
Proof.
  intros Hs Ht. exists (map (url_of noaa) (year_tokens start stop)).
  rewrite buildPaths_eq. split; [reflexivity |]. intros Hi Hj Hne.
  pose proof (year_tokens_four_digits start stop Hs Ht) as Hd.
  rewrite lookup_map in Hi.
  destruct (year_tokens start stop !! i) as [ti|] eqn:Eti; [| discriminate].
  injection Hi as <-.
  destruct (digit_tokens_lookup _ _ _ _ Hd Eti) as [Hli Hdi].
  destruct (digit_tokens_lookup _ _ _ _ Hd Hj) as [Hlj Hdj].
  destruct (contains tj (url_of noaa ti)) eqn:Hc; [| reflexivity].
  exfalso. apply Hne.
  rewrite url_of_fixed_prefix in Hc.
  assert (E : tj = ti).
  { apply (contains_digit_token (fixed_prefix noaa) ti (file_type noaa) tj);
      try assumption; try congruence; rewrite ?Hli; vm_compute; reflexivity. }
  subst tj.
  apply (NoDup_lookup _ i j ti (year_tokens_NoDup start stop) Eti Hj).
Qed.

Lemma four_digit_years_exclusive_witness :
  (1000 <= 1965)%Z /\ (1970 <= 10000)%Z /\
  exists urls,
    buildPaths noaa (year_tokens 1965 1970) = Ok urls /\
    (urls !! 0 = Some (url_of noaa "1965") ->
     year_tokens 1965 1970 !! 1 = Some "1966" ->
     0 <> 1 -> contains "1966" (url_of noaa "1965") = false).
Proof.
  assert (H1 : (1000 <= 1965)%Z) by lia.
  assert (H2 : (1970 <= 10000)%Z) by lia.
  split; [exact H1 |]. split; [exact H2 |].
  exact (four_digit_years_exclusive 1965 1970 0 1 (url_of noaa "1965") "1966" H1 H2).
Defined.

(** ** One token at a time *)

(** X12: the Series form of the two expressions agrees, index by index,
    with their single-string form: the URL and the local name at index [i]
    of the multi-token result are the values the [filepaths] and [filename]
    expressions take when [time] is the string of token [i] alone, in any
    namespace that holds the template. *)
Theorem series_agrees_with_single (tpl : NamingTemplate) (tokens : list string)
    (g : gmap string val) (i : nat) (t : string) :
  tokens !! i = Some t ->
  exists urls names u f,
    buildPaths tpl tokens = Ok urls /\
    localNames tpl tokens = Ok names /\
    filepaths_expr (bind_template tpl (VStr t) g) = Ok (VStr u) /\
    filename_expr (bind_template tpl (VStr t) g) = Ok (VStr f) /\
    urls !! i = Some u /\ names !! i = Some f.
Proof.
  intros Hi.
  exists (map (url_of tpl) tokens), (map (name_of tpl) tokens),
         (url_of tpl t), (name_of tpl t).
  rewrite buildPaths_eq, localNames_eq.
  rewrite (filepaths_expr_str tpl t), (filename_expr_str tpl t)
    by (apply binds_bind_template || apply time_bind_template).
  rewrite !lookup_map, Hi. repeat split.
Qed.

Lemma series_agrees_with_single_witness :
  five_years !! 2 = Some "1967" /\
  exists urls names u f,
    buildPaths noaa five_years = Ok urls /\
    localNames noaa five_years = Ok names /\
    filepaths_expr (bind_template noaa (VStr "1967") (globals kernel_b))
    = Ok (VStr u) /\
    filename_expr (bind_template noaa (VStr "1967") (globals kernel_b))
    = Ok (VStr f) /\
    urls !! 2 = Some u /\ names !! 2 = Some f.
Proof.
  assert (H : five_years !! 2 = Some "1967") by reflexivity.
  split; [exact H |].
  exact (series_agrees_with_single noaa five_years (globals kernel_b) 2 "1967" H).
Defined.
